(** * The Bandit fixture [test-fixtures/bandit-issues.py]

    The repository is one Python file of deliberately insecure snippets.
    Two views of it are embedded here:

    - its functions, as computations in a state-and-exception monad whose
      library and builtin calls are interpreted by an [interp] (the Python
      interpreter and the libraries are not part of the repository);
    - its text, line by line, for the statements that are about the file
      as a list of labelled snippets. *)

From Stdlib Require Import ZArith String Ascii List Lia DecimalString DecimalZ.
From stdpp Require Import base option list strings gmap.

Set Warnings "-register-all".

Local Open Scope Z_scope.
Local Open Scope string_scope.

(* ===================================================================== *)
(** ** Python values, exceptions, the world                               *)
(* ===================================================================== *)

(** The values the fixture manipulates.  [VObj] is an instance of a library
    class with the data the library keeps in it; [VLib] is a library object
    referred to by its qualified name (a module, a class or a constant such
    as [DES.MODE_ECB]). *)
Inductive value : Type :=
| VNone
| VBool (b : bool)
| VInt (n : Z)
| VStr (s : string)
| VBytes (s : string)
| VList (l : list value)
| VTuple (l : list value)
| VObj (cls : string) (fields : list value)
| VLib (qualname : string).

(** Exceptions.  [BaseOnly] stands for the classes that derive from
    [BaseException] but not from [Exception] ([KeyboardInterrupt],
    [SystemExit], [GeneratorExit], ...): [except Exception] lets them
    through. *)
Inductive exn : Type :=
| AssertionError (args : list value)
| TypeError (args : list value)
| OtherException (cls : string) (args : list value)
| BaseOnly (cls : string) (args : list value).

Definition is_Exception (e : exn) : bool :=
  match e with
  | BaseOnly _ _ => false
  | _ => true
  end.

Definition exn_class (e : exn) : string :=
  match e with
  | AssertionError _ => "AssertionError"
  | TypeError _ => "TypeError"
  | OtherException cls _ | BaseOnly cls _ => cls
  end.

Definition exn_args (e : exn) : list value :=
  match e with
  | AssertionError args | TypeError args
  | OtherException _ args | BaseOnly _ args => args
  end.

Inductive outcome (A : Type) : Type :=
| Ret (a : A)
| Raise (e : exn).
Arguments Ret {A} a.
Arguments Raise {A} e.

(** What a call can observe and change outside the function's locals:
    the bindings of the fixture module, the file system (contents and
    permission bits by path) and the private state of the libraries. *)
Record world : Type := World {
  globals : gmap string value;
  files : gmap string string;
  modes : gmap string Z;
  libstate : gmap string value
}.

(** A callee outside the repository: a library or builtin callable known by
    its qualified name, or a method looked up by name on a value the caller
    supplied (the receiver is the first argument). *)
Inductive callee : Type :=
| Fn (qualname : string)
| Meth (name : string).

Definition kwargs : Type := list (string * value).

Record event : Type := Ev {
  ev_callee : callee;
  ev_args : list value;
  ev_kwargs : kwargs;
  ev_outcome : outcome value
}.

(** The interpreter the file runs on: [debug] is Python's [__debug__]
    (false under [python -O]), [ext_sem] gives the effect of every call that
    leaves the file.  [int_max_str_digits] is the limit on the digits of an
    integer turned into text ([sys.get_int_max_str_digits()], 4300 by
    default since Python 3.11; 0 means no limit).  [patience] is the number
    of items a loop may pull from an iterator before the run is interrupted
    from outside: a loop over an iterator that never ends does not return,
    and a run of it ends with KeyboardInterrupt. *)
Record interp : Type := Interp {
  debug : bool;
  ext_sem : callee → list value → kwargs → world → outcome value * world;
  int_max_str_digits : nat;
  patience : nat
}.

Record state : Type := State {
  st_world : world;
  st_trace : list event
}.

(* ===================================================================== *)
(** ** The monad of Python computations                                   *)
(* ===================================================================== *)

Definition M (A : Type) : Type := state → outcome A * state.

Definition ret {A} (a : A) : M A := λ st, (Ret a, st).

Definition raise {A} (e : exn) : M A := λ st, (Raise e, st).

Definition bind {A B} (m : M A) (k : A → M B) : M B :=
  λ st, match m st with
        | (Ret a, st') => k a st'
        | (Raise e, st') => (Raise e, st')
        end.

Declare Scope py_scope.
Delimit Scope py_scope with py.
Notation "x <- m ;; k" := (bind m (λ x, k))
  (at level 100, m at next level, right associativity) : py_scope.
Notation "m ;;; k" := (bind m (λ _, k))
  (at level 100, right associativity) : py_scope.
Local Open Scope py_scope.

(** [try: body / except Exception: handler]. *)
Definition try_except_Exception {A} (body handler : M A) : M A :=
  λ st, match body st with
        | (Raise e, st') => if is_Exception e then handler st' else (Raise e, st')
        | r => r
        end.

(** [for item in items: body(item)] over a list. *)
Fixpoint for_each (items : list value) (body : value → M unit) : M unit :=
  match items with
  | [] => ret tt
  | item :: rest => body item ;;; for_each rest body
  end.

Definition Z_to_string (n : Z) : string := NilZero.string_of_int (Z.to_int n).

(** The truth of a value of a builtin type; an object decides for itself. *)
Definition truth_value (v : value) : option bool :=
  match v with
  | VNone => Some false
  | VBool b => Some b
  | VInt n => Some (negb (Z.eqb n 0))
  | VStr s | VBytes s => Some (match s with EmptyString => false | _ => true end)
  | VList l | VTuple l => Some (match l with [] => false | _ => true end)
  | VObj _ _ | VLib _ => None
  end.

(** The marker [next(it, end)] answers when the iterator is exhausted. *)
Definition end_of_iteration : value := VLib "<end of iteration>".

Definition is_end (v : value) : bool :=
  match v with
  | VLib q => String.eqb q "<end of iteration>"
  | _ => false
  end.

Definition interrupted : exn := BaseOnly "KeyboardInterrupt" [].

(** The characters of a [str], whose text is kept in UTF-8: a character
    is a byte with the continuation bytes (10xxxxxx) that follow it. *)
Definition is_continuation (c : ascii) : bool :=
  (128 <=? nat_of_ascii c)%nat && (nat_of_ascii c <=? 191)%nat.

Fixpoint code_points (s : string) : list string :=
  match s with
  | EmptyString => []
  | String c s' =>
      match s' with
      | String d _ =>
          if is_continuation d then
            match code_points s' with
            | g :: gs => String c g :: gs
            | [] => [String c EmptyString]
            end
          else String c EmptyString :: code_points s'
      | EmptyString => [String c EmptyString]
      end
  end.

Definition bytes_of (s : string) : list value :=
  map (λ c, VInt (Z.of_nat (nat_of_ascii c))) (list_ascii_of_string s).

Definition nl : string := String (ascii_of_nat 10) EmptyString.

Section Fixture.

Variable py : interp.

(** A call that leaves the file: the interpreter decides its outcome and its
    effect on the world; the call is appended to the trace. *)
Definition ext (c : callee) (args : list value) (kw : kwargs) : M value :=
  λ st, let '(o, w) := ext_sem py c args kw (st_world st) in
        (o, {| st_world := w; st_trace := st_trace st ++ [Ev c args kw o] |}).

(** [import m] and [from m import name] inside a function body. *)
Definition import_ (module : string) : M value :=
  ext (Fn "builtins.__import__") [VStr module] [].

Definition from_import (module name : string) : M value :=
  ext (Fn "builtins.__import__") [VStr module] [("fromlist", VTuple [VStr name])].

(** [assert cond, msg]: compiled away when [__debug__] is false. *)
Definition assert_ (cond : bool) (msg : value) : M unit :=
  if debug py then (if cond then ret tt else raise (AssertionError [msg]))
  else ret tt.

(** An integer can be turned into text when it has no more digits than
    the limit of the interpreter, which is never below 640. *)
Definition int_fits (n : Z) : bool :=
  match int_max_str_digits py with
  | O => true
  | limit => Z.ltb (Z.abs n) (Z.pow 10 (Z.of_nat (Nat.max limit 640)))
  end.

(** A replacement field [{v}] of an f-string: [format(v, '')].  This is the
    string itself for a [str] and the usual text for [None], booleans and
    integers (ValueError for an integer with more digits than the limit);
    any other object formats itself. *)
Definition format_field (v : value) : M string :=
  match v with
  | VStr s => ret s
  | VNone => ret "None"
  | VBool true => ret "True"
  | VBool false => ret "False"
  | VInt n =>
      if int_fits n then ret (Z_to_string n)
      else raise (OtherException "ValueError"
                    [VStr "Exceeds the limit for integer string conversion"])
  | _ => r <- ext (Fn "builtins.format") [v] [] ;;
         match r with
         | VStr s => ret s
         | _ => raise (TypeError [VStr "__format__ must return a str"])
         end
  end.

(** [lhs + rhs] for a [str] literal on the left: concatenation with a
    [str]; a library object may answer through [__radd__]; anything else is
    a [TypeError]. *)
Definition str_add (lhs : string) (rhs : value) : M value :=
  match rhs with
  | VStr s => ret (VStr (lhs +:+ s))
  | VObj _ _ | VLib _ => ext (Meth "__radd__") [rhs; VStr lhs] []
  | _ => raise (TypeError [VStr "can only concatenate str to str"])
  end.

(** The truth of a value where a statement tests it: a value of a builtin
    type by its own rule; for an object the interpreter asks it ([bool(v)],
    which answers True or False or raises; an answer that is no bool is
    read by the same rules, an object being true). *)
Definition truthy (v : value) : M bool :=
  match truth_value v with
  | Some b => ret b
  | None => r <- ext (Fn "builtins.bool") [v] [] ;;
            ret (default true (truth_value r))
  end.

(** [with mgr as f: body].  [__enter__] gives the value bound to [f].  When
    the body ends, [__exit__(None, None, None)] is called and its answer is
    dropped.  When the body raises, [__exit__] is called with the exception:
    the exception is suppressed when the answer is true and raised again
    otherwise. *)
Definition with_file (mgr : value) (body : value → M unit) : M unit :=
  f <- ext (Fn "io.IOBase.__enter__") [mgr] [] ;;
  λ st, match body f st with
        | (Ret _, st') =>
            (ext (Fn "io.IOBase.__exit__") [mgr; VNone; VNone; VNone] [] ;;; ret tt) st'
        | (Raise e, st') =>
            (answer <- ext (Fn "io.IOBase.__exit__")
                         [mgr; VLib (exn_class e); VObj (exn_class e) (exn_args e);
                          VLib "traceback"] [] ;;
             suppress <- truthy answer ;;
             if (suppress : bool) then ret tt else raise e) st'
        end.

(** [for item in it: body(item)] over an iterator: the loop pulls one item
    at a time with [next(it, end)] and runs the body on it before it pulls
    the next one; it ends when the iterator answers the end marker. *)
Fixpoint for_iter (fuel : nat) (it : value) (body : value → M unit) : M unit :=
  match fuel with
  | O => raise interrupted
  | S fuel' =>
      item <- ext (Fn "builtins.next") [it; end_of_iteration] [] ;;
      if is_end item then ret tt
      else (body item ;;; for_iter fuel' it body)
  end.

(* --------------------------------------------------------------------- *)
(** *** The functions of the file, in file order                          *)
(* --------------------------------------------------------------------- *)

(** B101 *)
Definition assert_usage (user_input : value) : M value :=
  assert_ (match user_input with VNone => false | _ => true end)
          (VStr "Input required") ;;;
  ret user_input.

(** B102 *)
Definition exec_usage (code_string : value) : M value :=
  ext (Fn "builtins.exec") [code_string] [] ;;;
  ret VNone.

(** B103 *)
Definition bad_permissions : M value :=
  ext (Fn "os.chmod") [VStr "/tmp/secret.txt"; VInt 511 (* 0o777 *)] [] ;;;
  ret VNone.

(** B104 *)
Definition bind_all_interfaces : M value :=
  import_ "socket" ;;;
  s <- ext (Fn "socket.socket") [] [] ;;
  ext (Fn "socket.socket.bind") [s; VTuple [VStr "0.0.0.0"; VInt 8080]] [] ;;;
  ret VNone.

(** B105, B106, B107 *)
Definition PASSWORD : value := VStr "super_secret_password123".
Definition API_KEY : value := VStr "sk-1234567890abcdef".

Definition connect_db_default : value := VStr "admin123".

Definition connect_db (password : value) : M value :=
  p <- format_field password ;;
  ret (VStr ("connecting with " +:+ p)).

Definition login_default : value := VStr "default_pass".

Definition login (user passwd : value) : M value :=
  ret VNone.

(** B108 *)
Definition use_tmp : M value :=
  f <- ext (Fn "builtins.open") [VStr "/tmp/data.txt"; VStr "w"] [] ;;
  with_file f (λ f,
    ext (Fn "io.TextIOWrapper.write") [f; VStr "sensitive data"] [] ;;; ret tt) ;;;
  ret VNone.

(** B110.  The callee is the module-level name [risky_operation], looked up
    when [ignore_errors] runs; [ignore_errors_with] takes it as a parameter
    and [ignore_errors] is the file's own binding. *)
Definition risky_operation : M value :=
  ret VNone.

Definition ignore_errors_with (risky_operation : M value) : M value :=
  try_except_Exception (risky_operation ;;; ret tt) (ret tt) ;;;
  ret VNone.

Definition ignore_errors : M value :=
  ignore_errors_with risky_operation.

(** B112.  As above for the module-level name [process]. *)
Definition process (item : value) : M value :=
  ret VNone.

Definition continue_on_error_with (process : value → M value)
    (items : list value) : M value :=
  for_each items (λ item,
    try_except_Exception (process item ;;; ret tt) (ret tt (* continue *))) ;;;
  ret VNone.

Definition continue_on_error (items : list value) : M value :=
  continue_on_error_with process items.

(** The same loop over an object that is no list: [iter(items)] gives the
    iterator the loop pulls from. *)
Definition continue_on_error_over (process : value → M value)
    (items : value) : M value :=
  it <- ext (Fn "builtins.iter") [items] [] ;;
  for_iter (patience py) it (λ item,
    try_except_Exception (process item ;;; ret tt) (ret tt (* continue *))) ;;;
  ret VNone.

(** B301 *)
Definition unsafe_pickle : M value :=
  data <- ext (Fn "pickle.loads")
            [VBytes ("cos" +:+ nl +:+ "system" +:+ nl +:+ "(S'echo hacked'"
                     +:+ nl +:+ "tR.")] [] ;;
  ret VNone.

(** B303 *)
Definition weak_hash (data : value) : M value :=
  b <- ext (Meth "encode") [data] [] ;;
  h <- ext (Fn "hashlib.md5") [b] [] ;;
  ext (Fn "_hashlib.HASH.hexdigest") [h] [].

(** B304 *)
Definition weak_cipher : M value :=
  from_import "Crypto.Cipher" "DES" ;;;
  let key := VBytes "12345678" in
  cipher <- ext (Fn "Crypto.Cipher.DES.new")
              [key; VLib "Crypto.Cipher.DES.MODE_ECB"] [] ;;
  ret VNone.

(** B305 *)
Definition insecure_cipher_mode : M value :=
  from_import "Crypto.Cipher" "AES" ;;;
  let key := VBytes "sixteen byte key" in
  cipher <- ext (Fn "Crypto.Cipher.AES.new")
              [key; VLib "Crypto.Cipher.AES.MODE_ECB"] [] ;;
  ret VNone.

(** B306 *)
Definition insecure_temp : M value :=
  filename <- ext (Fn "tempfile.mktemp") [] [] ;;
  ret filename.

(** B307 *)
Definition eval_usage (user_input : value) : M value :=
  ext (Fn "builtins.eval") [user_input] [].

(** B310 *)
Definition url_open (url : value) : M value :=
  import_ "urllib.request" ;;;
  ext (Fn "urllib.request.urlopen") [url] [].

(** B311 *)
Definition insecure_random : M value :=
  token <- ext (Fn "random.randint") [VInt 0; VInt 999999] [] ;;
  t <- format_field token ;;
  ret (VStr ("token_" +:+ t)).

(** B312 *)
Definition use_telnet : M value :=
  import_ "telnetlib" ;;;
  tn <- ext (Fn "telnetlib.Telnet") [VStr "example.com"] [] ;;
  ret VNone.

(** B320, B410 *)
Definition parse_xml (xml_string : value) : M value :=
  import_ "xml.etree.ElementTree" ;;;
  ext (Fn "xml.etree.ElementTree.fromstring") [xml_string] [].

(** B321 *)
Definition use_ftp : M value :=
  import_ "ftplib" ;;;
  ftp <- ext (Fn "ftplib.FTP") [VStr "ftp.example.com"] [] ;;
  ret VNone.

(** B323 *)
Definition insecure_ssl : M value :=
  context <- ext (Fn "ssl._create_unverified_context") [] [] ;;
  ret context.

(** B324 *)
Definition more_weak_hashes (data : value) : M value :=
  h1 <- ext (Fn "hashlib.new") [VStr "md5"] [] ;;
  h2 <- ext (Fn "hashlib.new") [VStr "sha1"] [] ;;
  b <- ext (Meth "encode") [data] [] ;;
  ext (Fn "_hashlib.HASH.update") [h1; b] [] ;;;
  ext (Fn "_hashlib.HASH.hexdigest") [h1] [].

(** B501 *)
Definition insecure_request : M value :=
  import_ "requests" ;;;
  response <- ext (Fn "requests.get") [VStr "https://example.com"]
                [("verify", VBool false)] ;;
  ret VNone.

(** B506 *)
Definition unsafe_yaml (yaml_string : value) : M value :=
  import_ "yaml" ;;;
  ext (Fn "yaml.load") [yaml_string] [].

(** B601 *)
Definition ssh_command (host cmd : value) : M value :=
  import_ "paramiko" ;;;
  client <- ext (Fn "paramiko.SSHClient") [] [] ;;
  policy <- ext (Fn "paramiko.AutoAddPolicy") [] [] ;;
  ext (Fn "paramiko.SSHClient.set_missing_host_key_policy") [client; policy] [] ;;;
  ext (Fn "paramiko.SSHClient.connect") [client; host]
    [("username", VStr "root"); ("password", VStr "toor")] ;;;
  ret VNone.

(** B602 *)
Definition shell_injection (user_input : value) : M value :=
  u <- format_field user_input ;;
  ext (Fn "subprocess.Popen") [VStr ("echo " +:+ u)] [("shell", VBool true)] ;;;
  ret VNone.

(** B603 *)
Definition subprocess_call (cmd : value) : M value :=
  ext (Fn "subprocess.call") [cmd] [] ;;;
  ret VNone.

(** B604 *)
Definition os_system_call (cmd : value) : M value :=
  ext (Fn "os.system") [cmd] [] ;;;
  ret VNone.

(** B605 *)
Definition popen_shell (cmd : value) : M value :=
  ext (Fn "os.popen") [cmd] [] ;;;
  ret VNone.

(** B607 *)
Definition partial_path_exec : M value :=
  ext (Fn "subprocess.call")
    [VList [VStr "python"; VStr "-c"; VStr "print('hello')"]] [] ;;;
  ret VNone.

(** B608 *)
Definition sql_injection (user_id : value) : M value :=
  query <- str_add "SELECT * FROM users WHERE id = " user_id ;;
  ret query.

(** B609 *)
Definition wildcard_injection : M value :=
  ext (Fn "subprocess.call") [VStr "tar cf archive.tar *"]
    [("shell", VBool true)] ;;;
  ret VNone.

(** B701 *)
Definition jinja_template : M value :=
  from_import "jinja2" "Environment" ;;;
  env <- ext (Fn "jinja2.Environment") [] [("autoescape", VBool false)] ;;
  ret VNone.

(** B702 *)
Definition mako_template : M value :=
  from_import "mako.template" "Template" ;;;
  t <- ext (Fn "mako.template.Template") [VStr "<html>${user_input}</html>"] [] ;;
  ret VNone.

(* --------------------------------------------------------------------- *)
(** *** The module as a table of callables                                *)
(* --------------------------------------------------------------------- *)

(** A call with positional arguments: a wrong number of them is a
    [TypeError]; a parameter with a default takes it when omitted. *)
Definition pyfun : Type := list value → M value.

Definition arity_error : M value :=
  raise (TypeError [VStr "wrong number of positional arguments"]).

Definition params0 (f : M value) : pyfun :=
  λ args, match args with
          | [] => f
          | _ => arity_error
          end.

Definition params1 (f : value → M value) : pyfun :=
  λ args, match args with
          | [x] => f x
          | _ => arity_error
          end.

Definition params2 (f : value → value → M value) : pyfun :=
  λ args, match args with
          | [x; y] => f x y
          | _ => arity_error
          end.

Definition params1_default (d : value) (f : value → M value) : pyfun :=
  λ args, match args with
          | [] => f d
          | [x] => f x
          | _ => arity_error
          end.

Definition params2_default (d : value) (f : value → value → M value) : pyfun :=
  λ args, match args with
          | [x] => f x d
          | [x; y] => f x y
          | _ => arity_error
          end.

(** The argument of a [for] loop.  A list or a tuple is walked as it is, a
    [str] character by character and [bytes] byte by byte, without a call;
    None, a boolean or an integer is not iterable; any other object is
    asked for an iterator. *)
Definition items_of (on_list : list value → M value)
    (on_object : value → M value) : value → M value :=
  λ v, match v with
       | VList items | VTuple items => on_list items
       | VStr s => on_list (map VStr (code_points s))
       | VBytes s => on_list (bytes_of s)
       | VNone | VBool _ | VInt _ =>
           raise (TypeError [VStr "object is not iterable"])
       | VObj _ _ | VLib _ => on_object v
       end.

Definition module_functions : list (string * pyfun) :=
  [ ("assert_usage", params1 assert_usage);
    ("exec_usage", params1 exec_usage);
    ("bad_permissions", params0 bad_permissions);
    ("bind_all_interfaces", params0 bind_all_interfaces);
    ("connect_db", params1_default connect_db_default connect_db);
    ("login", params2_default login_default login);
    ("use_tmp", params0 use_tmp);
    ("ignore_errors", params0 ignore_errors);
    ("risky_operation", params0 risky_operation);
    ("continue_on_error",
     params1 (items_of continue_on_error (continue_on_error_over process)));
    ("process", params1 process);
    ("unsafe_pickle", params0 unsafe_pickle);
    ("weak_hash", params1 weak_hash);
    ("weak_cipher", params0 weak_cipher);
    ("insecure_cipher_mode", params0 insecure_cipher_mode);
    ("insecure_temp", params0 insecure_temp);
    ("eval_usage", params1 eval_usage);
    ("url_open", params1 url_open);
    ("insecure_random", params0 insecure_random);
    ("use_telnet", params0 use_telnet);
    ("parse_xml", params1 parse_xml);
    ("use_ftp", params0 use_ftp);
    ("insecure_ssl", params0 insecure_ssl);
    ("more_weak_hashes", params1 more_weak_hashes);
    ("insecure_request", params0 insecure_request);
    ("unsafe_yaml", params1 unsafe_yaml);
    ("ssh_command", params2 ssh_command);
    ("shell_injection", params1 shell_injection);
    ("subprocess_call", params1 subprocess_call);
    ("os_system_call", params1 os_system_call);
    ("popen_shell", params1 popen_shell);
    ("partial_path_exec", params0 partial_path_exec);
    ("sql_injection", params1 sql_injection);
    ("wildcard_injection", params0 wildcard_injection);
    ("jinja_template", params0 jinja_template);
    ("mako_template", params0 mako_template) ].

End Fixture.

(** A call starts from a world and an empty trace: the trace of the result
    is the list of calls this invocation made outside the file. *)
Definition start (w : world) : state := {| st_world := w; st_trace := [] |}.

Definition empty_world : world :=
  {| globals := ∅; files := ∅; modes := ∅; libstate := ∅ |}.

(** The world once the module is loaded: its two module-level constants. *)
Definition module_world : world :=
  {| globals := <["PASSWORD" := PASSWORD]> (<["API_KEY" := API_KEY]> ∅);
     files := ∅; modes := ∅; libstate := ∅ |}.

Definition returned (ev : event) : bool :=
  match ev_outcome ev with
  | Ret _ => true
  | Raise _ => false
  end.

(* ===================================================================== *)
(** ** String helpers                                                     *)
(* ===================================================================== *)

Fixpoint split_char (sep : ascii) (s : string) : list string :=
  match s with
  | EmptyString => [EmptyString]
  | String c s' =>
      if Ascii.eqb c sep then EmptyString :: split_char sep s'
      else match split_char sep s' with
           | piece :: pieces => String c piece :: pieces
           | [] => [String c EmptyString]
           end
  end.

Fixpoint strip_prefix (p s : string) : option string :=
  match p, s with
  | EmptyString, _ => Some s
  | String a p', String b s' => if Ascii.eqb a b then strip_prefix p' s' else None
  | String _ _, EmptyString => None
  end.

Fixpoint trim_left (s : string) : string :=
  match s with
  | String " " s' => trim_left s'
  | _ => s
  end.

Fixpoint contains (sub s : string) : bool :=
  match strip_prefix sub s with
  | Some _ => true
  | None => match s with
            | EmptyString => false
            | String _ s' => contains sub s'
            end
  end.

Definition is_digit (c : ascii) : bool :=
  (48 <=? nat_of_ascii c)%nat && (nat_of_ascii c <=? 57)%nat.

Definition is_name_char (c : ascii) : bool :=
  let n := nat_of_ascii c in
  ((48 <=? n) && (n <=? 57) || (65 <=? n) && (n <=? 90)
   || (97 <=? n) && (n <=? 122) || (n =? 95))%nat.

Fixpoint all_chars (p : ascii → bool) (s : string) : bool :=
  match s with
  | EmptyString => true
  | String c s' => p c && all_chars p s'
  end.

Definition is_identifier (s : string) : bool :=
  match s with
  | EmptyString => false
  | String c _ => negb (is_digit c) && all_chars is_name_char s
  end.


(* ===================================================================== *)
(** ** A reference interpreter                                            *)
(* ===================================================================== *)

(** The documented behaviour of the few builtins and library calls the
    examples below run through, on a file system where every path can be
    written.  [exec] understands one form of program,
    [global NAME] / [NAME = 'text'] on two lines, and binds the name in the
    globals of the calling module, which is where Python's [exec] evaluates
    a code string when it is given no namespace. *)
Definition parse_global_assignment (code : string) : option (string * string) :=
  match strip_prefix "global " code with
  | Some rest =>
      match split_char (ascii_of_nat 10) rest with
      | [name; line2] =>
          match strip_prefix (name +:+ " = '") line2 with
          | Some rhs =>
              match split_char "'" rhs with
              | [text; EmptyString] =>
                  if is_identifier name && negb (contains "\" text)
                  then Some (name, text) else None
              | _ => None
              end
          | None => None
          end
      | _ => None
      end
  | None => None
  end.

Definition unsupported (q : string) : outcome value :=
  Raise (OtherException "NotImplementedError" [VStr q]).

(** The library calls: outcome, files and modes; the module's globals are
    out of their reach. *)
Definition ref_library (q : string) (args : list value) (w : world)
    : outcome value * gmap string string * gmap string Z :=
  if String.eqb q "builtins.open" then
    match args with
    | [VStr path; VStr "w"] =>
        (Ret (VObj "io.TextIOWrapper" [VStr path]),
         <[path := EmptyString]> (files w), modes w)
    | _ => (unsupported q, files w, modes w)
    end
  else if String.eqb q "io.IOBase.__enter__" then
    match args with
    | [f] => (Ret f, files w, modes w)
    | _ => (unsupported q, files w, modes w)
    end
  else if String.eqb q "io.TextIOWrapper.write" then
    match args with
    | [VObj "io.TextIOWrapper" [VStr path]; VStr data] =>
        (Ret (VInt (Z.of_nat (String.length data))),
         <[path := default EmptyString (files w !! path) +:+ data]> (files w),
         modes w)
    | _ => (unsupported q, files w, modes w)
    end
  else if String.eqb q "io.IOBase.__exit__" then
    (Ret VNone, files w, modes w)
  else if String.eqb q "os.chmod" then
    match args with
    | [VStr path; VInt mode] =>
        match files w !! path with
        | Some _ => (Ret VNone, files w, <[path := mode]> (modes w))
        | None => (Raise (OtherException "FileNotFoundError" [VStr path]),
                   files w, modes w)
        end
    | _ => (unsupported q, files w, modes w)
    end
  else if String.eqb q "builtins.__import__" then
    match args with
    | [VStr m] => (Ret (VLib m), files w, modes w)
    | _ => (unsupported q, files w, modes w)
    end
  else if String.eqb q "socket.socket" then
    (Ret (VObj "socket.socket" []), files w, modes w)
  else if String.eqb q "socket.socket.bind" then
    (Ret VNone, files w, modes w)
  else (unsupported q, files w, modes w).

Definition ref_sem (c : callee) (args : list value) (kw : kwargs) (w : world)
    : outcome value * world :=
  match c with
  | Fn q =>
      if String.eqb q "builtins.exec" then
        match args with
        | [VStr code] =>
            match parse_global_assignment code with
            | Some (name, text) =>
                (Ret VNone,
                 {| globals := <[name := VStr text]> (globals w);
                    files := files w; modes := modes w; libstate := libstate w |})
            | None => (unsupported q, w)
            end
        | _ => (unsupported q, w)
        end
      else if String.eqb q "builtins.eval" then (unsupported q, w)
      else
        let '(o, fs, ms) := ref_library q args w in
        (o, {| globals := globals w; files := fs; modes := ms;
               libstate := libstate w |})
  | Meth name =>
      (Raise (OtherException "AttributeError" [VStr name]), w)
  end.

(** The default interpreter ([__debug__] true) and [python -O]. *)
Definition ref_interp : interp :=
  {| debug := true; ext_sem := ref_sem;
     int_max_str_digits := 4300; patience := 1000 |}.
Definition ref_interp_O : interp :=
  {| debug := false; ext_sem := ref_sem;
     int_max_str_digits := 4300; patience := 1000 |}.


(* ===================================================================== *)
(** ** The file as text                                                   *)
(* ===================================================================== *)

Definition dq : string := String (ascii_of_nat 34) EmptyString.

Definition join_lines (rows : list string) : string := String.concat nl rows.

(** The bytes of [test-fixtures/bandit-issues.py]; [dq] is the double
    quote.  The file does not end with a newline. *)
Definition fixture_source : string := join_lines [
    "# Bandit test file - intentionally dirty code for security scanning";
    "# This file triggers various Bandit security warnings";
    "# WARNING: This is intentionally insecure code for testing purposes only!";
    EmptyString;
    "import os";
    "import subprocess";
    "import pickle";
    "import hashlib";
    "import tempfile";
    "import random";
    "import ssl";
    EmptyString;
    EmptyString;
    "# B101: Assert used - assert statements are removed with compiling to optimized code";
    "def assert_usage(user_input):";
    "    assert user_input is not None, " +:+ dq +:+ "Input required" +:+ dq;
    "    return user_input";
    EmptyString;
    EmptyString;
    "# B102: exec_used - Use of exec detected";
    "def exec_usage(code_string):";
    "    exec(code_string)";
    EmptyString;
    EmptyString;
    "# B103: set_bad_file_permissions";
    "def bad_permissions():";
    "    os.chmod(" +:+ dq +:+ "/tmp/secret.txt" +:+ dq +:+ ", 0o777)";
    EmptyString;
    EmptyString;
    "# B104: hardcoded_bind_all_interfaces";
    "def bind_all_interfaces():";
    "    import socket";
    "    s = socket.socket()";
    "    s.bind((" +:+ dq +:+ "0.0.0.0" +:+ dq +:+ ", 8080))";
    EmptyString;
    EmptyString;
    "# B105, B106, B107: hardcoded_password_string/funcarg/default";
    "PASSWORD = " +:+ dq +:+ "super_secret_password123" +:+ dq;
    "API_KEY = " +:+ dq +:+ "sk-1234567890abcdef" +:+ dq;
    EmptyString;
    EmptyString;
    "def connect_db(password=" +:+ dq +:+ "admin123" +:+ dq +:+ "):";
    "    return f" +:+ dq +:+ "connecting with {password}" +:+ dq;
    EmptyString;
    EmptyString;
    "def login(user, passwd=" +:+ dq +:+ "default_pass" +:+ dq +:+ "):";
    "    pass";
    EmptyString;
    EmptyString;
    "# B108: hardcoded_tmp_directory";
    "def use_tmp():";
    "    with open(" +:+ dq +:+ "/tmp/data.txt" +:+ dq +:+ ", " +:+ dq +:+ "w" +:+ dq +:+ ") as f:";
    "        f.write(" +:+ dq +:+ "sensitive data" +:+ dq +:+ ")";
    EmptyString;
    EmptyString;
    "# B110: try_except_pass - Try/except with pass, ignoring errors";
    "def ignore_errors():";
    "    try:";
    "        risky_operation()";
    "    except Exception:";
    "        pass";
    EmptyString;
    EmptyString;
    "def risky_operation():";
    "    pass";
    EmptyString;
    EmptyString;
    "# B112: try_except_continue";
    "def continue_on_error(items):";
    "    for item in items:";
    "        try:";
    "            process(item)";
    "        except Exception:";
    "            continue";
    EmptyString;
    EmptyString;
    "def process(item):";
    "    pass";
    EmptyString;
    EmptyString;
    "# B201: flask_debug_true (simulated)";
    "# B301: pickle - Pickle usage detected";
    "def unsafe_pickle():";
    "    data = pickle.loads(b" +:+ dq +:+ "cos\nsystem\n(S'echo hacked'\ntR." +:+ dq +:+ ")";
    EmptyString;
    EmptyString;
    "# B303: md5 - Use of insecure MD5 hash function";
    "def weak_hash(data):";
    "    return hashlib.md5(data.encode()).hexdigest()";
    EmptyString;
    EmptyString;
    "# B304: des - Use of insecure cipher";
    "def weak_cipher():";
    "    from Crypto.Cipher import DES";
    "    key = b'12345678'";
    "    cipher = DES.new(key, DES.MODE_ECB)";
    EmptyString;
    EmptyString;
    "# B305: cipher_modes - Use of insecure cipher mode";
    "def insecure_cipher_mode():";
    "    from Crypto.Cipher import AES";
    "    key = b'sixteen byte key'";
    "    cipher = AES.new(key, AES.MODE_ECB)";
    EmptyString;
    EmptyString;
    "# B306: mktemp_q - Use of insecure mktemp";
    "def insecure_temp():";
    "    filename = tempfile.mktemp()";
    "    return filename";
    EmptyString;
    EmptyString;
    "# B307: eval - Use of eval";
    "def eval_usage(user_input):";
    "    return eval(user_input)";
    EmptyString;
    EmptyString;
    "# B308: mark_safe (Django) - simulated";
    "# B310: urllib_urlopen - Audit url open for permitted schemes";
    "def url_open(url):";
    "    import urllib.request";
    "    return urllib.request.urlopen(url)";
    EmptyString;
    EmptyString;
    "# B311: random - Use of pseudo-random generator for security";
    "def insecure_random():";
    "    token = random.randint(0, 999999)";
    "    return f" +:+ dq +:+ "token_{token}" +:+ dq;
    EmptyString;
    EmptyString;
    "# B312: telnetlib - Telnet-related functions";
    "def use_telnet():";
    "    import telnetlib";
    "    tn = telnetlib.Telnet(" +:+ dq +:+ "example.com" +:+ dq +:+ ")";
    EmptyString;
    EmptyString;
    "# B320, B410: xml - XML parsing vulnerable to XXE attacks";
    "def parse_xml(xml_string):";
    "    import xml.etree.ElementTree as ET";
    "    return ET.fromstring(xml_string)";
    EmptyString;
    EmptyString;
    "# B321: ftplib - FTP-related functions";
    "def use_ftp():";
    "    import ftplib";
    "    ftp = ftplib.FTP(" +:+ dq +:+ "ftp.example.com" +:+ dq +:+ ")";
    EmptyString;
    EmptyString;
    "# B323: unverified_context - SSL certificate verification disabled";
    "def insecure_ssl():";
    "    context = ssl._create_unverified_context()";
    "    return context";
    EmptyString;
    EmptyString;
    "# B324: hashlib_new_insecure_functions - Insecure hash functions";
    "def more_weak_hashes(data):";
    "    h1 = hashlib.new('md5')";
    "    h2 = hashlib.new('sha1')";
    "    h1.update(data.encode())";
    "    return h1.hexdigest()";
    EmptyString;
    EmptyString;
    "# B501: request_with_no_cert_validation";
    "def insecure_request():";
    "    import requests";
    "    response = requests.get(" +:+ dq +:+ "https://example.com" +:+ dq +:+ ", verify=False)";
    EmptyString;
    EmptyString;
    "# B506: yaml_load - Use of unsafe YAML load";
    "def unsafe_yaml(yaml_string):";
    "    import yaml";
    "    return yaml.load(yaml_string)";
    EmptyString;
    EmptyString;
    "# B601: paramiko_calls - Paramiko SSH calls";
    "def ssh_command(host, cmd):";
    "    import paramiko";
    "    client = paramiko.SSHClient()";
    "    client.set_missing_host_key_policy(paramiko.AutoAddPolicy())";
    "    client.connect(host, username=" +:+ dq +:+ "root" +:+ dq +:+ ", password=" +:+ dq +:+ "toor" +:+ dq +:+ ")";
    EmptyString;
    EmptyString;
    "# B602: subprocess_popen_with_shell_equals_true";
    "def shell_injection(user_input):";
    "    subprocess.Popen(f" +:+ dq +:+ "echo {user_input}" +:+ dq +:+ ", shell=True)";
    EmptyString;
    EmptyString;
    "# B603: subprocess_without_shell_equals_true (still flagged for audit)";
    "def subprocess_call(cmd):";
    "    subprocess.call(cmd)";
    EmptyString;
    EmptyString;
    "# B604: any_other_function_with_shell_equals_true";
    "def os_system_call(cmd):";
    "    os.system(cmd)";
    EmptyString;
    EmptyString;
    "# B605: start_process_with_a_shell";
    "def popen_shell(cmd):";
    "    os.popen(cmd)";
    EmptyString;
    EmptyString;
    "# B607: start_process_with_partial_path";
    "def partial_path_exec():";
    "    subprocess.call([" +:+ dq +:+ "python" +:+ dq +:+ ", " +:+ dq +:+ "-c" +:+ dq +:+ ", " +:+ dq +:+ "print('hello')" +:+ dq +:+ "])";
    EmptyString;
    EmptyString;
    "# B608: hardcoded_sql_expressions - SQL injection";
    "def sql_injection(user_id):";
    "    query = " +:+ dq +:+ "SELECT * FROM users WHERE id = " +:+ dq +:+ " + user_id";
    "    return query";
    EmptyString;
    EmptyString;
    "# B609: linux_commands_wildcard_injection";
    "def wildcard_injection():";
    "    subprocess.call(" +:+ dq +:+ "tar cf archive.tar *" +:+ dq +:+ ", shell=True)";
    EmptyString;
    EmptyString;
    "# B610, B611: django_extra_used, django_rawsql_used - simulated";
    "# B701: jinja2_autoescape_false - Jinja2 templates with autoescape disabled";
    "def jinja_template():";
    "    from jinja2 import Environment";
    "    env = Environment(autoescape=False)";
    EmptyString;
    EmptyString;
    "# B702: use_of_mako_templates - Mako templates (no autoescape)";
    "def mako_template():";
    "    from mako.template import Template";
    "    t = Template(" +:+ dq +:+ "<html>${user_input}</html>" +:+ dq +:+ ")" ].

(** The lines of a text, as Python's [str.splitlines] and an editor count
    them: a final newline does not open one more line. *)
Definition splitlines (text : string) : list string :=
  let rows := split_char (ascii_of_nat 10) text in
  match last rows with
  | Some EmptyString => removelast rows
  | _ => rows
  end.

Definition is_rule_id (s : string) : bool :=
  match s with
  | String "B" (String a (String b (String c EmptyString))) =>
      is_digit a && is_digit b && is_digit c
  | _ => false
  end.

(** The Bandit rule ids a comment line labels what follows with:
    [# B105, B106, B107: ...] gives the three of them; any other line
    gives none. *)
Definition label_ids (line : string) : list string :=
  match strip_prefix "# " line with
  | Some rest =>
      match split_char ":" rest with
      | ids :: _ :: _ =>
          let ids := map trim_left (split_char "," ids) in
          if forallb is_rule_id ids then ids else []
      | _ => []
      end
  | None => []
  end.

(** The name a top-level [def] or assignment binds; nothing for any other
    line (an import, a comment, a blank or an indented line). *)
Definition construct_of (line : string) : option string :=
  match strip_prefix "def " line with
  | Some rest => head (split_char "(" rest)
  | None =>
      match split_char " " line with
      | name :: "=" :: _ => if is_identifier name then Some name else None
      | _ => None
      end
  end.

Fixpoint constructs_until_label (rows : list string) : list string :=
  match rows with
  | [] => []
  | row :: rest =>
      match label_ids row with
      | _ :: _ => []
      | [] => match construct_of row with
              | Some name => name :: constructs_until_label rest
              | None => constructs_until_label rest
              end
      end
  end.

Record snippet : Type := Snippet {
  sn_ids : list string;
  sn_simulated : bool;
  sn_constructs : list string
}.

(** The labelled snippets: each label line with the top-level constructs
    that stand between it and the next label line. *)
Fixpoint snippets_of (rows : list string) : list snippet :=
  match rows with
  | [] => []
  | row :: rest =>
      match label_ids row with
      | id :: ids =>
          Snippet (id :: ids) (contains "simulated" row)
            (constructs_until_label rest)
          :: snippets_of rest
      | [] => snippets_of rest
      end
  end.

Definition snippets (text : string) : list snippet :=
  snippets_of (splitlines text).

Definition is_toplevel (row : string) : bool :=
  match row with
  | EmptyString => false
  | String " " _ => false
  | String _ _ => true
  end.

Fixpoint body_of (rows : list string) : list string :=
  match rows with
  | [] => []
  | row :: rest => if is_toplevel row then [] else row :: body_of rest
  end.

(** The functions of a text: the name of each top-level [def] with the
    lines of its body. *)
Fixpoint defs_of (rows : list string) : list (string * list string) :=
  match rows with
  | [] => []
  | row :: rest =>
      match strip_prefix "def " row with
      | Some sig => (default EmptyString (head (split_char "(" sig)), body_of rest)
                    :: defs_of rest
      | None => defs_of rest
      end
  end.

Definition has_statement (keyword : string) (body : list string) : bool :=
  existsb (λ row, match strip_prefix keyword (trim_left row) with
                  | Some _ => true
                  | None => false
                  end) body.

Definition defined_functions (text : string) : list string :=
  map fst (defs_of (splitlines text)).

Definition functions_with (keyword : string) (text : string) : list string :=
  map fst (filter (λ d, has_statement keyword (snd d) = true)
             (defs_of (splitlines text))).

Definition functions_without (keyword : string) (text : string) : list string :=
  map fst (filter (λ d, has_statement keyword (snd d) = false)
             (defs_of (splitlines text))).

(* ===================================================================== *)
(** ** What is shown of the calls                                         *)
(* ===================================================================== *)

(** What holds of the outcome and of the final state of every call of a
    function, from any world. *)
Definition always (P : world → outcome value → state → Prop) (f : pyfun)
    : Prop :=
  ∀ args w, P w (f args (start w)).1 (f args (start w)).2.




Definition count_calls (p : event → bool) (trace : list event) : nat :=
  length (filter (λ ev, p ev = true) trace).

(** The properties shown of every function of the table. *)
Definition returns_None : world → outcome value → state → Prop :=
  λ _ o _, ∀ v, o = Ret v → v = VNone.


Definition changes_by_calls_only : world → outcome value → state → Prop :=
  λ w _ st, st_trace st = [] → st_world st = w.



Definition is_member (x : string) (l : list string) : bool :=
  existsb (String.eqb x) l.

Definition keeps_globals : world → outcome value → state → Prop :=
  λ w _ st, globals (st_world st) = globals w.

(** A code string for [exec]: two lines that rebind PASSWORD. *)
Definition rebind_PASSWORD : value :=
  VStr ("global PASSWORD" +:+ nl +:+ "PASSWORD = 'changed'").

(** An interpreter in which every call returns its first argument (None
    when it has none) and changes nothing. *)
Definition echo_interp : interp :=
  {| debug := true; ext_sem := λ _ args _ w, (Ret (hd VNone args), w);
     int_max_str_digits := 4300; patience := 1000 |}.


(** The events that call the library function [q]. *)
Definition calls (q : string) (ev : event) : bool :=
  match ev_callee ev with
  | Fn q' => String.eqb q q'
  | Meth _ => false
  end.




Definition arity_TypeError : exn :=
  TypeError [VStr "wrong number of positional arguments"].

(** The parameters a [def] line declares, from the text after [def]: how
    many have no default, and how many there are. *)
Definition arity_of (sig : string) : option (nat * nat) :=
  match split_char "(" sig with
  | [_; rest] =>
      match split_char ")" rest with
      | [EmptyString; ":"] => Some (0, 0)%nat
      | [params; ":"] =>
          let ps := split_char "," params in
          Some (length (filter (λ p, contains "=" p = false) ps), length ps)
      | _ => None
      end
  | _ => None
  end.

Fixpoint signature_in (name : string) (rows : list string) : option (nat * nat) :=
  match rows with
  | [] => None
  | row :: rest =>
      match strip_prefix ("def " +:+ name +:+ "(") row with
      | Some _ => match strip_prefix "def " row with
                  | Some sig => arity_of sig
                  | None => None
                  end
      | None => signature_in name rest
      end
  end.

Definition signature_of (name text : string) : option (nat * nat) :=
  signature_in name (splitlines text).


(** The outcome of a call is that of the last call it made outside the file. *)
Definition returns_last_result : world → outcome value → state → Prop :=
  λ w o st,
    match last (st_trace st) with
    | Some ev => o = ev_outcome ev
    | None => o = Raise arity_TypeError ∧ st_world st = w
    end.

Definition pass_through_functions : list string :=
  ["weak_hash"; "insecure_temp"; "eval_usage"; "url_open"; "parse_xml";
   "insecure_ssl"; "more_weak_hashes"; "unsafe_yaml"].

Definition bounded_calls : world → outcome value → state → Prop :=
  λ _ _ st, (length (st_trace st) <= 5)%nat.

(** A function raises only after a call it made has raised. *)
Definition raises_only_after_failure : world → outcome value → state → Prop :=
  λ _ o st, forallb returned (st_trace st) = true → ∃ v, o = Ret v.

(** The functions that can raise an exception of their own: the assertion
    of assert_usage, the TypeError of a concatenation or of a formatted
    field, the TypeError of a loop over a value that is no list. *)
Definition raising_functions : list string :=
  ["assert_usage"; "connect_db"; "continue_on_error"; "insecure_random";
   "shell_injection"; "sql_injection"].

(** The trace of a loop over an iterator: calls of iter and next only, all
    returned but perhaps the last; the loop returns None, and only when
    every call returned, and raises what its last call raised. *)
Definition loop_trace (o : outcome value) (trace : list event) : Prop :=
  trace ≠ []
  ∧ Forall (λ ev, ev_callee ev = Fn "builtins.iter"
                  ∨ ev_callee ev = Fn "builtins.next") trace
  ∧ forallb returned (removelast trace) = true
  ∧ (∀ v, o = Ret v → v = VNone ∧ forallb returned trace = true)
  ∧ (∀ ev e, last trace = Some ev → ev_outcome ev = Raise e → o = Raise e).

(* ===================================================================== *)
(** ** Running the functions                                              *)
(* ===================================================================== *)

Lemma for_each_swallowing (proc : value → M value) :
  (∀ item st e st', proc item st = (Raise e, st') → is_Exception e = true) →
  ∀ items st,
    for_each items
      (λ item, try_except_Exception (proc item ;;; ret tt) (ret tt)) st
    = (Ret tt, fold_left (λ s item, (proc item s).2) items st).
Proof.
  intros Hexc items. induction items as [|item rest IH]; intros st.
  - reflexivity.
  - cbn [for_each fold_left]. unfold bind at 1.
    unfold try_except_Exception, bind, ret.
    destruct (proc item st) as [[v|e] st1] eqn:Hrun; cbn [snd].
    + apply IH.
    + rewrite (Hexc _ _ _ _ Hrun). apply IH.
Qed.

Lemma process_never_raises item st e st' :
  process item st = (Raise e, st') → is_Exception e = true.
Proof. intros H. discriminate H. Qed.

Lemma fold_process items st :
  fold_left (λ s item, (process item s).2) items st = st.
Proof. induction items as [|item rest IH]; [reflexivity | exact IH]. Qed.

Lemma continue_on_error_with_run (proc : value → M value) :
  (∀ item st e st', proc item st = (Raise e, st') → is_Exception e = true) →
  ∀ items st,
    continue_on_error_with proc items st
    = (Ret VNone, fold_left (λ s item, (proc item s).2) items st).
Proof.
  intros Hexc items st. unfold continue_on_error_with, bind.
  rewrite (for_each_swallowing proc Hexc). reflexivity.
Qed.

Lemma continue_on_error_run items st :
  continue_on_error items st = (Ret VNone, st).
Proof.
  unfold continue_on_error.
  rewrite (continue_on_error_with_run process process_never_raises).
  rewrite fold_process. reflexivity.
Qed.



(** The loop over an iterator, with a body that does nothing (the process
    of the file): its calls are the pulls, it stops at the first pull that
    raises, and it returns only when every pull returned. *)
Lemma for_iter_calls py it (body : value → M unit) :
  (∀ item s, body item s = (Ret tt, s)) →
  ∀ fuel st o st',
    for_iter py fuel it body st = (o, st') →
    ∃ evs,
      st_trace st' = (st_trace st ++ evs)%list
      ∧ Forall (λ ev, ev_callee ev = Fn "builtins.next") evs
      ∧ forallb returned (removelast evs) = true
      ∧ (∀ u, o = Ret u → forallb returned evs = true)
      ∧ (∀ ev e, last evs = Some ev → ev_outcome ev = Raise e → o = Raise e).
Proof.
  intros Hbody fuel. induction fuel as [|fuel IH]; intros st o st' Hrun.
  - injection Hrun as <- <-. exists []. rewrite app_nil_r.
    repeat split; auto; intros; discriminate.
  - cbn [for_iter] in Hrun. unfold bind at 1 in Hrun. unfold ext at 1 in Hrun.
    destruct (ext_sem py (Fn "builtins.next") [it; end_of_iteration] []
                (st_world st)) as [[item|e] w1].
    + destruct (is_end item).
      * injection Hrun as <- <-. eexists [_]. cbn [st_trace].
        repeat split; auto.
        intros ev e Hlast Hout. injection Hlast as <-. discriminate Hout.
      * unfold bind at 1 in Hrun. rewrite Hbody in Hrun.
        destruct (IH _ _ _ Hrun) as (evs & Htrace & Hnext & Hinit & Hret & Hlast).
        cbn [st_trace] in Htrace.
        match type of Htrace with
        | _ = ((_ ++ [?ev]) ++ _)%list => exists (ev :: evs)
        end.
        rewrite Htrace, <- app_assoc.
        split; [reflexivity|].
        split; [constructor; [reflexivity | exact Hnext]|].
        split; [| split].
        -- destruct evs as [|ev' evs]; [reflexivity|]. exact Hinit.
        -- intros u Hu. exact (Hret u Hu).
        -- intros ev e. destruct evs as [|ev' evs].
           ++ intros Hl Hout. injection Hl as <-. discriminate Hout.
           ++ intros Hl. apply Hlast. exact Hl.
    + injection Hrun as <- <-. eexists [_]. cbn [st_trace].
      repeat split; auto.
      * intros u Hu. discriminate Hu.
      * intros ev e0 Hlast Hout. injection Hlast as <-.
        cbn in Hout. congruence.
Qed.

Lemma continue_on_error_over_calls py items w :
  let r := continue_on_error_over py process items (start w) in
  loop_trace r.1 (st_trace r.2).
Proof.
  cbv zeta.
  destruct (continue_on_error_over py process items (start w))
    as [o st'] eqn:Hrun.
  cbn [fst snd]. unfold continue_on_error_over in Hrun.
  unfold bind at 1 in Hrun. unfold ext at 1 in Hrun.
  cbn [start st_world st_trace app] in Hrun.
  destruct (ext_sem py (Fn "builtins.iter") [items] [] w) as [[it|e] w1].
  - unfold bind at 1 in Hrun.
    match type of Hrun with
    | context [for_iter py ?fuel it ?body ?s] =>
        destruct (for_iter py fuel it body s) as [[u|e] st1] eqn:Hloop;
        destruct (for_iter_calls py it body (λ _ _, eq_refl) _ _ _ _ Hloop)
          as (evs & Htrace & Hnext & Hinit & Hret & Hlast)
    end; unfold ret in Hrun; injection Hrun as <- <-;
      cbn [st_trace app] in Htrace; rewrite Htrace; unfold loop_trace.
    + split; [discriminate|].
      split; [constructor; [left; reflexivity|];
              eapply Forall_impl; [exact Hnext | intros ev H; right; exact H]|].
      split; [destruct evs; [reflexivity | exact Hinit]|].
      split.
      * intros v Hv. injection Hv as <-. split; [reflexivity|].
        exact (Hret u eq_refl).
      * intros ev e0. destruct evs as [|ev' evs].
        -- intros Hl Hout. injection Hl as <-. discriminate Hout.
        -- intros Hl Hout. discriminate (Hlast ev e0 Hl Hout).
    + split; [discriminate|].
      split; [constructor; [left; reflexivity|];
              eapply Forall_impl; [exact Hnext | intros ev H; right; exact H]|].
      split; [destruct evs; [reflexivity | exact Hinit]|].
      split.
      * intros v Hv. discriminate Hv.
      * intros ev e0. destruct evs as [|ev' evs].
        -- intros Hl Hout. injection Hl as <-. discriminate Hout.
        -- intros Hl Hout. pose proof (Hlast ev e0 Hl Hout) as Heq.
           injection Heq as <-. reflexivity.
  - injection Hrun as <- <-. unfold loop_trace. cbn [st_trace].
    split; [discriminate|].
    split; [constructor; [left; reflexivity | constructor]|].
    split; [reflexivity|]. split.
    + intros v Hv. discriminate Hv.
    + intros ev e0 Hl Hout. injection Hl as <-. cbn in Hout. congruence.
Qed.

(** A call of continue_on_error either makes no call at all or is a loop
    over an iterator. *)
Lemma continue_on_error_entry py args w :
  let r := params1 (items_of continue_on_error
                      (continue_on_error_over py process)) args (start w) in
  (r.2 = start w ∧ (r.1 = Ret VNone ∨ ∃ e, r.1 = Raise e))
  ∨ loop_trace r.1 (st_trace r.2).
Proof.
  cbv zeta. destruct args as [|items [|? ?]].
  - left. split; [reflexivity | right; eexists; reflexivity].
  - destruct items; cbn [params1 items_of];
      try rewrite continue_on_error_run;
      try (right; apply continue_on_error_over_calls);
      left; (split; [reflexivity|]);
      first [left; reflexivity | right; eexists; reflexivity].
  - left. split; [reflexivity | right; eexists; reflexivity].
Qed.


Arguments continue_on_error : simpl never.

(** Symbolic execution of a call.  The positional arguments are told apart,
    the function is unfolded, and every call that leaves the file is
    replaced by an outcome and a world, its equation kept. *)
Ltac each_function :=
  unfold module_functions;
  repeat (apply List.Forall_cons); try apply List.Forall_nil.

Ltac split_args args :=
  destruct args as [|? [|? [|? ?]]].

Ltac unfold_fixture :=
  cbv [params0 params1 params2 params1_default params2_default arity_error
       assert_usage exec_usage bad_permissions bind_all_interfaces
       connect_db connect_db_default login login_default use_tmp
       ignore_errors ignore_errors_with risky_operation process
       unsafe_pickle weak_hash weak_cipher insecure_cipher_mode
       insecure_temp eval_usage url_open insecure_random use_telnet
       parse_xml use_ftp insecure_ssl more_weak_hashes insecure_request
       unsafe_yaml ssh_command shell_injection subprocess_call
       os_system_call popen_shell partial_path_exec sql_injection
       wildcard_injection jinja_template mako_template
       try_except_Exception with_file truthy truth_value default from_option id
       format_field str_add assert_
       import_ from_import ext bind ret raise start st_world st_trace
       fst snd].

Ltac ext_step :=
  match goal with
  | |- context [ext_sem ?py ?c ?a ?k ?w] =>
      let o := fresh "o" in
      let w' := fresh "w" in
      let E := fresh "E" in
      destruct (ext_sem py c a k w) as [[o|o] w'] eqn:E;
      cbv beta iota zeta
  end.

Ltac value_step :=
  match goal with
  | |- context [match ?v with VNone => _ | _ => _ end] =>
      is_var v; destruct v; cbv beta iota zeta
  | |- context [match ?l with [] => _ | _ :: _ => _ end] =>
      is_var l; destruct l; cbv beta iota zeta
  | |- context [match ?s with EmptyString => _ | String _ _ => _ end] =>
      is_var s; destruct s; cbv beta iota zeta
  | |- context [if ?b then _ else _] =>
      is_var b; destruct b; cbv beta iota zeta
  | |- context [Z.eqb ?n 0] =>
      is_var n; destruct (Z.eqb n 0); cbv beta iota zeta delta [negb]
  | |- context [int_fits ?py ?n] =>
      destruct (int_fits py n); cbv beta iota zeta
  | |- context [debug ?py] =>
      destruct (debug py); cbv beta iota zeta
  end.

Ltac run_call :=
  unfold_fixture;
  repeat (first [ext_step | value_step]).

Ltac run_in_state :=
  unfold_fixture;
  repeat (first [ext_step | value_step]).

(** The entry of continue_on_error is the tenth of the table; it is told
    apart by [continue_on_error_entry]. *)
Ltac loop_entry py args w :=
  intros args w;
  destruct (continue_on_error_entry py args w)
    as [[Hstate Hout] | (Hcalls & Hbuiltin & Hinit & Hret & Hlast)];
  cbv zeta in *.




Lemma In_is_member x l : In x l → is_member x l = true.
Proof.
  intros H. unfold is_member. apply existsb_exists. exists x.
  split; [exact H | apply String.eqb_refl].
Qed.

Lemma not_member x l : ¬ In x l → is_member x l = false.
Proof.
  intros H. unfold is_member. destruct (existsb (String.eqb x) l) eqn:E; [|reflexivity].
  exfalso. apply H. apply existsb_exists in E as (y & Hy & Heq).
  apply String.eqb_eq in Heq. subst y. exact Hy.
Qed.

Lemma table_lookup {A} (P : string * A → Prop) (table : list (string * A)) :
  Forall P table → ∀ name f, In (name, f) table → P (name, f).
Proof. intros H name f Hin. rewrite List.Forall_forall in H. exact (H _ Hin). Qed.

(** The table lists the functions the text defines, in the same order. *)
Lemma table_matches_text py :
  map fst (module_functions py) = defined_functions fixture_source.
Proof. vm_compute. reflexivity. Qed.


Lemma all_change_by_calls_only py :
  Forall (λ nf, always changes_by_calls_only nf.2) (module_functions py).
Proof.
  each_function.
  all: unfold always, changes_by_calls_only; cbv beta; cbn [fst snd].
  10: { loop_entry py args w; intros Htrace.
        - rewrite Hstate. reflexivity.
        - contradiction. }
  all: intros args w; split_args args; run_call.
  all: intros Htrace; first [reflexivity | discriminate Htrace].
Qed.


Lemma without_return_return_None py :
  Forall (λ nf, is_member nf.1 (functions_without "return" fixture_source) = true
                → always returns_None nf.2)
    (module_functions py).
Proof.
  each_function.
  all: intros Hmem; vm_compute in Hmem; try discriminate Hmem; clear Hmem.
  all: unfold always, returns_None; cbv beta; cbn [fst snd].
  8: { loop_entry py args w; intros v Hv.
       - destruct Hout as [Ho | [e Ho]]; rewrite Ho in Hv;
           [injection Hv as <-; reflexivity | discriminate Hv].
       - exact (proj1 (Hret v Hv)). }
  all: intros args w; split_args args; run_call.
  all: intros ? Hret; first [discriminate Hret | injection Hret as <-; reflexivity].
Qed.

Lemma pass_through_return_last_result py :
  Forall (λ nf, is_member nf.1 pass_through_functions = true
                → always returns_last_result nf.2)
    (module_functions py).
Proof.
  each_function.
  all: intros Hmem; vm_compute in Hmem; try discriminate Hmem; clear Hmem.
  all: unfold always, returns_last_result; cbv beta; cbn [fst snd].
  all: intros args w; split_args args; run_call.
  all: vm_compute; first [reflexivity | split; reflexivity].
Qed.

Section Globals.

Variable py : interp.

(** Every call that leaves the file, [exec] and [eval] apart, leaves the
    bindings of the fixture module as they are. *)
Hypothesis libraries_keep_globals :
  ∀ c args kw w,
    c ≠ Fn "builtins.exec" → c ≠ Fn "builtins.eval" →
    globals (ext_sem py c args kw w).2 = globals w.

Ltac chain_globals :=
  repeat match goal with
         | E : ext_sem py ?c ?a ?k ?w = (_, _) |- _ =>
             let G := fresh "G" in
             pose proof (libraries_keep_globals c a k w
                           ltac:(discriminate) ltac:(discriminate)) as G;
             rewrite E in G; cbn [snd] in G; clear E
         end;
  congruence.

Lemma for_iter_keeps_globals it (body : value → M unit) :
  (∀ item s, body item s = (Ret tt, s)) →
  ∀ fuel st,
    globals (st_world (for_iter py fuel it body st).2) = globals (st_world st).
Proof.
  intros Hbody fuel. induction fuel as [|fuel IH]; intros st; [reflexivity|].
  cbn [for_iter]. unfold bind at 1. unfold ext at 1.
  destruct (ext_sem py (Fn "builtins.next") [it; end_of_iteration] []
              (st_world st)) as [[item|e] w1] eqn:E.
  - destruct (is_end item).
    + cbn. chain_globals.
    + unfold bind at 1. rewrite Hbody, IH. cbn. chain_globals.
  - cbn. chain_globals.
Qed.

Lemma continue_on_error_over_keeps_globals items w :
  globals (st_world (continue_on_error_over py process items (start w)).2)
  = globals w.
Proof.
  unfold continue_on_error_over. unfold bind at 1. unfold ext at 1.
  cbn [start st_world st_trace].
  destruct (ext_sem py (Fn "builtins.iter") [items] [] w) as [[it|e] w1] eqn:E.
  - unfold bind at 1.
    match goal with
    | |- context [for_iter py ?fuel it ?body ?s] =>
        pose proof (for_iter_keeps_globals it body (λ _ _, eq_refl) fuel s)
          as Hloop;
        destruct (for_iter py fuel it body s) as [[u|e] st1]
    end; cbn in *; chain_globals.
  - cbn. chain_globals.
Qed.

Lemma continue_on_error_entry_keeps_globals :
  always keeps_globals
    (params1 (items_of continue_on_error (continue_on_error_over py process))).
Proof.
  unfold always, keeps_globals. intros args w.
  destruct args as [|items [|? ?]]; [reflexivity | | reflexivity].
  destruct items; cbn [params1 items_of];
    try rewrite continue_on_error_run; try reflexivity;
    apply continue_on_error_over_keeps_globals.
Qed.

Lemma all_keep_globals :
  Forall (λ nf, is_member nf.1 ["exec_usage"; "eval_usage"] = false
                → always keeps_globals nf.2)
    (module_functions py).
Proof.
  each_function.
  all: intros Hmem; vm_compute in Hmem; try discriminate Hmem; clear Hmem.
  9: { exact continue_on_error_entry_keeps_globals. }
  all: unfold always, keeps_globals; cbv beta.
  all: intros args w; split_args args; run_call.
  all: chain_globals.
Qed.

End Globals.

(** Membership in the table and in a computed list of names. *)
Ltac find_entry :=
  unfold module_functions; cbn [In];
  repeat (first [left; reflexivity | right]).

Ltac find_name :=
  vm_compute; repeat (first [left; reflexivity | right]).

(** The embedded text has the size of the file, 5301 bytes. *)
Lemma fixture_source_size : Z.of_nat (String.length fixture_source) = 5301.
Proof. vm_compute. reflexivity. Qed.

(** An integer of at most 640 digits can always be turned into text. *)
Lemma small_int_fits py n : Z.abs n < 10 ^ 640 → int_fits py n = true.
Proof.
  intros Hn. unfold int_fits. destruct (int_max_str_digits py) as [|k];
    [reflexivity|].
  apply Z.ltb_lt. eapply Z.lt_le_trans; [exact Hn|].
  apply Z.pow_le_mono_r; lia.
Qed.

(* ===================================================================== *)
(** ** The claims                                                         *)
(* ===================================================================== *)

(** C1, as stated, fails: the value sql_injection returns depends on its
    argument. *)
Lemma return_value_depends_on_argument :
  In ("sql_injection", params1 (sql_injection ref_interp))
     (module_functions ref_interp)
  ∧ (sql_injection ref_interp (VStr "1") (start module_world)).1
    = Ret (VStr "SELECT * FROM users WHERE id = 1")
  ∧ (sql_injection ref_interp (VStr "2") (start module_world)).1
    = Ret (VStr "SELECT * FROM users WHERE id = 2")
  ∧ ¬ (∀ py name f, In (name, f) (module_functions py) →
         ∀ x y w, (f [x] (start w)).1 = (f [y] (start w)).1).
Proof.
  split; [find_entry|]. split; [reflexivity|]. split; [reflexivity|].
  intros H.
  specialize (H ref_interp "sql_injection" (params1 (sql_injection ref_interp))
                ltac:(find_entry) (VStr "1") (VStr "2") module_world).
  discriminate H.
Qed.

(** C1 (amended).  Of the 36 functions of the file, the 24 that have no
    return statement return None whenever they return, whatever their
    arguments.  The 12 with a return statement return a value computed
    from their argument or from a library call: weak_hash, insecure_temp,
    eval_usage, url_open, parse_xml, insecure_ssl, more_weak_hashes and
    unsafe_yaml return what their last library call returned;
    insecure_random returns a string that starts with token_; assert_usage
    returns its argument when that is not None; connect_db returns the
    text connecting with followed by the password, and sql_injection the
    query prefix followed by user_id, for a string. *)
Theorem return_values py :
  (length (defined_functions fixture_source) = 36%nat
   ∧ length (functions_without "return" fixture_source) = 24%nat
   ∧ length (functions_with "return" fixture_source) = 12%nat
   ∧ ∀ name, In name (functions_with "return" fixture_source) →
       In name pass_through_functions
       ∨ In name ["insecure_random"; "assert_usage"; "connect_db";
                  "sql_injection"])
  ∧ (∀ name f, In (name, f) (module_functions py) →
     In name (functions_without "return" fixture_source) →
     ∀ args w v st', f args (start w) = (Ret v, st') → v = VNone)
  ∧ (∀ name f, In (name, f) (module_functions py) →
     In name pass_through_functions →
     ∀ args w,
       match last (st_trace (f args (start w)).2) with
       | Some ev => (f args (start w)).1 = ev_outcome ev
       | None => (f args (start w)).1 = Raise arity_TypeError
       end)
  ∧ (∀ st r st', insecure_random py st = (Ret r, st') →
       ∃ s, r = VStr ("token_" +:+ s))
  ∧ (∀ user_input st, user_input ≠ VNone →
       assert_usage py user_input st = (Ret user_input, st))
  ∧ (∀ password st,
       connect_db py (VStr password) st
       = (Ret (VStr ("connecting with " +:+ password)), st))
  ∧ (∀ user_id st,
       sql_injection py (VStr user_id) st
       = (Ret (VStr ("SELECT * FROM users WHERE id = " +:+ user_id)), st)).
Proof.
  split; [| split; [| split; [| split; [| split; [| split]]]]].
  - split; [vm_compute; reflexivity|]. split; [vm_compute; reflexivity|].
    split; [vm_compute; reflexivity|].
    intros name Hname. vm_compute in Hname.
    repeat (destruct Hname as [<-|Hname];
            [first [left; solve [find_name] | right; solve [find_name]]|]).
    contradiction.
  - intros name f Hin Hname args w v st' Hrun.
    pose proof (table_lookup _ _ (without_return_return_None py) name f Hin
                  (In_is_member _ _ Hname) args w) as Hnone.
    unfold returns_None in Hnone. cbn [snd] in Hnone.
    apply Hnone. rewrite Hrun. reflexivity.
  - intros name f Hin Hname args w.
    pose proof (table_lookup _ _ (pass_through_return_last_result py) name f
                  Hin (In_is_member _ _ Hname) args w) as Hlast.
    unfold returns_last_result in Hlast. cbn [snd] in Hlast.
    destruct (last _); [exact Hlast | exact (proj1 Hlast)].
  - intros st r st'.
    assert (Hgoal : match insecure_random py st with
                    | (Ret r, _) => ∃ s, r = VStr ("token_" +:+ s)
                    | (Raise _, _) => True
                    end).
    { run_in_state. all: first [exact I | eexists; reflexivity]. }
    intros Hrun. rewrite Hrun in Hgoal. exact Hgoal.
  - intros user_input st Hnone.
    unfold assert_usage, assert_, bind, ret.
    destruct (debug py), user_input; try reflexivity. contradiction.
  - reflexivity.
  - reflexivity.
Qed.

Lemma return_values_witness :
  (In ("use_tmp", params0 (use_tmp ref_interp)) (module_functions ref_interp)
   ∧ In "use_tmp" (functions_without "return" fixture_source)
   ∧ (params0 (use_tmp ref_interp) [] (start empty_world)).1 = Ret VNone
   ∧ VStr "admin" ≠ VNone)
  ∧ assert_usage ref_interp (VStr "admin") (start module_world)
    = (Ret (VStr "admin"), start module_world)
  ∧ connect_db ref_interp (VStr "hunter2") (start module_world)
    = (Ret (VStr "connecting with hunter2"), start module_world).
Proof.
  pose proof (return_values ref_interp)
    as (_ & Hnone & _ & _ & Hassert & Hconnect & _).
  split; [split; [find_entry | split; [find_name | split]] |].
  - destruct (params0 (use_tmp ref_interp) [] (start empty_world))
      as [[v|e] st'] eqn:Hrun.
    + cbn [fst]. f_equal.
      apply (Hnone "use_tmp" (params0 (use_tmp ref_interp)) ltac:(find_entry)
               ltac:(find_name) [] empty_world v st' Hrun).
    + vm_compute in Hrun. discriminate Hrun.
  - discriminate.
  - split.
    + apply Hassert. discriminate.
    + apply Hconnect.
Defined.




(** C3, as stated, fails: use_tmp writes to a file. *)
Lemma use_tmp_writes_file :
  In ("use_tmp", params0 (use_tmp ref_interp)) (module_functions ref_interp)
  ∧ files empty_world !! "/tmp/data.txt" = None
  ∧ files (st_world (params0 (use_tmp ref_interp) [] (start empty_world)).2)
    !! "/tmp/data.txt" = Some "sensitive data"
  ∧ ¬ (∀ py name f, In (name, f) (module_functions py) →
         ∀ args w, files (st_world (f args (start w)).2) = files w).
Proof.
  split; [find_entry|]. split; [reflexivity|].
  split; [vm_compute; reflexivity|].
  intros H.
  specialize (H ref_interp "use_tmp" (params0 (use_tmp ref_interp))
                ltac:(find_entry) [] empty_world).
  apply (f_equal (λ m : gmap string string, m !! "/tmp/data.txt")) in H.
  vm_compute in H. discriminate H.
Qed.

(** C3 (amended).  No function of the file changes a file or any other
    durable state except through the library and builtin calls it makes: a
    call that makes none leaves the world as it was, and assert_usage,
    login, ignore_errors, risky_operation, process, continue_on_error (on a
    list), connect_db and sql_injection (on a string) make none.  use_tmp
    does write: whenever opening /tmp/data.txt for writing succeeds, it
    writes the text sensitive data to the file it opened. *)
Theorem durable_state py :
  (∀ name f, In (name, f) (module_functions py) →
     ∀ args w, st_trace (f args (start w)).2 = [] →
     st_world (f args (start w)).2 = w)
  ∧ (∀ st,
       (∀ user_input, (assert_usage py user_input st).2 = st)
       ∧ (∀ user passwd, (login user passwd st).2 = st)
       ∧ (ignore_errors st).2 = st
       ∧ (risky_operation st).2 = st
       ∧ (∀ item, (process item st).2 = st)
       ∧ (∀ items, (continue_on_error items st).2 = st)
       ∧ (∀ password, (connect_db py (VStr password) st).2 = st)
       ∧ (∀ user_id, (sql_injection py (VStr user_id) st).2 = st))
  ∧ (∀ w fobj w1 f w2,
       ext_sem py (Fn "builtins.open") [VStr "/tmp/data.txt"; VStr "w"] [] w
       = (Ret fobj, w1) →
       ext_sem py (Fn "io.IOBase.__enter__") [fobj] [] w1 = (Ret f, w2) →
       ∃ o, In (Ev (Fn "io.TextIOWrapper.write") [f; VStr "sensitive data"] [] o)
              (st_trace (use_tmp py (start w)).2)).
Proof.
  split; [| split].
  - intros name f Hin args w.
    exact (table_lookup _ _ (all_change_by_calls_only py) name f Hin args w).
  - intros st. repeat split; try reflexivity.
    + intros user_input. unfold assert_usage, assert_, bind, ret, raise.
      destruct (debug py), user_input; reflexivity.
    + intros items. rewrite continue_on_error_run. reflexivity.
  - intros w fobj w1 f w2 Hopen Henter.
    assert (Hfirst : ∀ (l : list event) ev rest,
              In ev (((l ++ [ev]) ++ rest)%list)).
    { intros l ev rest. apply in_or_app. left. apply in_or_app. right.
      left. reflexivity. }
    unfold_fixture. rewrite Hopen. cbv beta iota zeta.
    rewrite Henter. cbv beta iota zeta.
    destruct (ext_sem py (Fn "io.TextIOWrapper.write") _ _ w2)
      as [[r|e] w3] eqn:Hwrite; cbv beta iota zeta.
    + exists (Ret r). repeat (first [ext_step | value_step]).
      all: cbn [app In]; auto 10.
    + exists (Raise e). repeat (first [ext_step | value_step]).
      all: cbn [app In]; auto 10.
Qed.

Lemma durable_state_witness :
  (In ("login", params2_default login_default login)
      (module_functions ref_interp)
   ∧ st_trace (params2_default login_default login [VStr "root"]
                 (start module_world)).2 = []
   ∧ ext_sem ref_interp (Fn "builtins.open")
       [VStr "/tmp/data.txt"; VStr "w"] [] empty_world
     = (Ret (VObj "io.TextIOWrapper" [VStr "/tmp/data.txt"]),
        (ref_sem (Fn "builtins.open") [VStr "/tmp/data.txt"; VStr "w"] []
           empty_world).2))
  ∧ st_world (params2_default login_default login [VStr "root"]
                (start module_world)).2 = module_world
  ∧ ∃ o, In (Ev (Fn "io.TextIOWrapper.write")
               [VObj "io.TextIOWrapper" [VStr "/tmp/data.txt"];
                VStr "sensitive data"] [] o)
           (st_trace (use_tmp ref_interp (start empty_world)).2).
Proof.
  split; [split; [find_entry | split; reflexivity] |]. split.
  - apply (proj1 (durable_state ref_interp) "login"
             (params2_default login_default login) ltac:(find_entry)
             [VStr "root"] module_world).
    reflexivity.
  - apply (proj2 (proj2 (durable_state ref_interp)) empty_world
             (VObj "io.TextIOWrapper" [VStr "/tmp/data.txt"])
             (ref_sem (Fn "builtins.open") [VStr "/tmp/data.txt"; VStr "w"] []
                empty_world).2
             (VObj "io.TextIOWrapper" [VStr "/tmp/data.txt"])
             (ref_sem (Fn "builtins.open") [VStr "/tmp/data.txt"; VStr "w"] []
                empty_world).2);
      reflexivity.
Defined.

(** C4, as stated, fails: the label B201 (marked simulated) is followed
    directly by the next label and has no code construct, and the line that
    carries B105, B106 and B107 stands before four constructs. *)
Lemma label_without_construct :
  In (Snippet ["B201"] true []) (snippets fixture_source)
  ∧ In (Snippet ["B105"; "B106"; "B107"] false
          ["PASSWORD"; "API_KEY"; "connect_db"; "login"])
       (snippets fixture_source)
  ∧ ¬ Forall (λ s, length (sn_constructs s) = length (sn_ids s))
        (snippets fixture_source).
Proof.
  split; [find_name|]. split; [find_name|].
  intros H. rewrite List.Forall_forall in H.
  specialize (H (Snippet ["B201"] true []) ltac:(find_name)).
  discriminate H.
Qed.

(** C4 (amended).  The fixture is a list of 36 label lines, each naming one
    to three Bandit rule ids and followed, before the next label line, by
    the constructs listed here.  A label line marked simulated (B201; B308;
    B610 and B611) has no construct; every other label line has at least
    one, and labels and constructs are not one to one: the B105, B106, B107
    line has four, B110 and B112 have two each (the handler and its callee),
    B320 and B410 share one.  Every function of the file stands under
    exactly one label line. *)
Theorem labelled_snippets :
  map (λ s, (sn_ids s, sn_constructs s)) (snippets fixture_source)
  = [ (["B101"], ["assert_usage"]);
      (["B102"], ["exec_usage"]);
      (["B103"], ["bad_permissions"]);
      (["B104"], ["bind_all_interfaces"]);
      (["B105"; "B106"; "B107"], ["PASSWORD"; "API_KEY"; "connect_db"; "login"]);
      (["B108"], ["use_tmp"]);
      (["B110"], ["ignore_errors"; "risky_operation"]);
      (["B112"], ["continue_on_error"; "process"]);
      (["B201"], []);
      (["B301"], ["unsafe_pickle"]);
      (["B303"], ["weak_hash"]);
      (["B304"], ["weak_cipher"]);
      (["B305"], ["insecure_cipher_mode"]);
      (["B306"], ["insecure_temp"]);
      (["B307"], ["eval_usage"]);
      (["B308"], []);
      (["B310"], ["url_open"]);
      (["B311"], ["insecure_random"]);
      (["B312"], ["use_telnet"]);
      (["B320"; "B410"], ["parse_xml"]);
      (["B321"], ["use_ftp"]);
      (["B323"], ["insecure_ssl"]);
      (["B324"], ["more_weak_hashes"]);
      (["B501"], ["insecure_request"]);
      (["B506"], ["unsafe_yaml"]);
      (["B601"], ["ssh_command"]);
      (["B602"], ["shell_injection"]);
      (["B603"], ["subprocess_call"]);
      (["B604"], ["os_system_call"]);
      (["B605"], ["popen_shell"]);
      (["B607"], ["partial_path_exec"]);
      (["B608"], ["sql_injection"]);
      (["B609"], ["wildcard_injection"]);
      (["B610"; "B611"], []);
      (["B701"], ["jinja_template"]);
      (["B702"], ["mako_template"]) ]
  ∧ Forall (λ s, if sn_simulated s then sn_constructs s = []
                 else sn_constructs s ≠ [])
      (snippets fixture_source)
  ∧ map sn_ids (filter (λ s, sn_simulated s = true) (snippets fixture_source))
    = [["B201"]; ["B308"]; ["B610"; "B611"]]
  ∧ filter (λ c, is_member c ["PASSWORD"; "API_KEY"] = false)
      (concat (map sn_constructs (snippets fixture_source)))
    = defined_functions fixture_source.
Proof.
  split; [vm_compute; reflexivity|].
  split; [| split; vm_compute; reflexivity].
  vm_compute.
  repeat (apply List.Forall_cons; [first [reflexivity | discriminate] |]).
  apply List.Forall_nil.
Qed.

(** C5.  The fixture source file consists of exactly 228 lines: its text
    splits into 228 lines, the last of which is not empty (the file has 227
    newline characters and does not end with one). *)
Theorem fixture_line_count :
  length (splitlines fixture_source) = 228%nat
  ∧ length (split_char (ascii_of_nat 10) fixture_source) = 228%nat
  ∧ last (splitlines fixture_source)
    = Some ("    t = Template(" +:+ dq +:+ "<html>${user_input}</html>" +:+ dq +:+ ")").
Proof. vm_compute. repeat split. Qed.

(** C6, as stated, fails: exec_usage runs the code it is given in the
    globals of the module, and that code can rebind PASSWORD. *)
Lemma exec_usage_rebinds_PASSWORD :
  In ("exec_usage", params1 (exec_usage ref_interp)) (module_functions ref_interp)
  ∧ globals module_world !! "PASSWORD" = Some PASSWORD
  ∧ globals (st_world (params1 (exec_usage ref_interp) [rebind_PASSWORD]
                         (start module_world)).2) !! "PASSWORD"
    = Some (VStr "changed")
  ∧ ¬ (∀ py name f, In (name, f) (module_functions py) →
         ∀ args w, globals (st_world (f args (start w)).2) !! "PASSWORD"
                   = globals w !! "PASSWORD").
Proof.
  split; [find_entry|]. split; [vm_compute; reflexivity|].
  split; [vm_compute; reflexivity|].
  intros H.
  specialize (H ref_interp "exec_usage" (params1 (exec_usage ref_interp))
                ltac:(find_entry) [rebind_PASSWORD] module_world).
  vm_compute in H. discriminate H.
Qed.

(** C6 (amended).  The code of the file never assigns a module-level
    binding: PASSWORD, API_KEY and every other binding of the module are
    unchanged by every function other than exec_usage and eval_usage,
    provided the library and builtin calls the function makes leave them
    unchanged.  exec_usage and eval_usage hand the code they are given to
    exec and eval, and leave the bindings as that builtin leaves them. *)
Theorem module_bindings py :
  ((∀ c args kw w, c ≠ Fn "builtins.exec" → c ≠ Fn "builtins.eval" →
      globals (ext_sem py c args kw w).2 = globals w) →
   ∀ name f, In (name, f) (module_functions py) →
     name ≠ "exec_usage" → name ≠ "eval_usage" →
     ∀ args w, globals (st_world (f args (start w)).2) = globals w)
  ∧ (∀ code w,
       globals (st_world (exec_usage py code (start w)).2)
       = globals (ext_sem py (Fn "builtins.exec") [code] [] w).2)
  ∧ (∀ code w,
       globals (st_world (eval_usage py code (start w)).2)
       = globals (ext_sem py (Fn "builtins.eval") [code] [] w).2).
Proof.
  split; [| split].
  - intros Hlib name f Hin Hexec Heval args w.
    apply (table_lookup _ _ (all_keep_globals py Hlib) name f Hin).
    apply not_member. cbn [In fst].
    intros [H|[H|[]]]; [apply Hexec | apply Heval]; symmetry; exact H.
  - intros code w. unfold exec_usage, ext, bind, ret, start.
    cbn [st_world st_trace].
    destruct (ext_sem py (Fn "builtins.exec") [code] [] w) as [[r|e] w'];
      reflexivity.
  - intros code w. unfold eval_usage, ext, bind, ret, start.
    cbn [st_world st_trace].
    destruct (ext_sem py (Fn "builtins.eval") [code] [] w) as [[r|e] w'];
      reflexivity.
Qed.

Lemma ref_libraries_keep_globals c args kw w :
  c ≠ Fn "builtins.exec" → c ≠ Fn "builtins.eval" →
  globals (ext_sem ref_interp c args kw w).2 = globals w.
Proof.
  intros Hexec Heval. cbn [ext_sem ref_interp]. unfold ref_sem.
  destruct c as [q|name]; [| reflexivity].
  destruct (String.eqb_spec q "builtins.exec") as [->|_]; [contradiction|].
  destruct (String.eqb_spec q "builtins.eval") as [->|_]; [contradiction|].
  destruct (ref_library q args w) as [[o fs] ms]. reflexivity.
Qed.

Lemma module_bindings_witness :
  (In ("use_tmp", params0 (use_tmp ref_interp)) (module_functions ref_interp)
   ∧ "use_tmp" ≠ "exec_usage" ∧ "use_tmp" ≠ "eval_usage")
  ∧ globals (st_world (params0 (use_tmp ref_interp) [] (start module_world)).2)
    = globals module_world
  ∧ globals (st_world (exec_usage ref_interp rebind_PASSWORD
                         (start module_world)).2)
    = globals (ext_sem ref_interp (Fn "builtins.exec") [rebind_PASSWORD] []
                 module_world).2.
Proof.
  split; [split; [find_entry | split; discriminate] |]. split.
  - apply (proj1 (module_bindings ref_interp) ref_libraries_keep_globals
             "use_tmp" (params0 (use_tmp ref_interp)) ltac:(find_entry));
      discriminate.
  - apply (proj1 (proj2 (module_bindings ref_interp))).
Defined.




(** C8, as stated, fails when assertions are compiled away: under
    [python -O] assert_usage(None) returns None and raises nothing. *)
Lemma assert_usage_optimized_counterexample :
  assert_usage ref_interp_O VNone (start module_world)
  = (Ret VNone, start module_world)
  ∧ ¬ (∀ py user_input st,
         (∃ args, (assert_usage py user_input st).1 = Raise (AssertionError args))
         ↔ user_input = VNone).
Proof.
  split; [reflexivity|].
  intros H.
  destruct (proj2 (H ref_interp_O VNone (start module_world)) eq_refl)
    as [args Hargs].
  discriminate Hargs.
Qed.

(** C8 (amended).  assert_usage(user_input) returns user_input unchanged for
    every input that is not None.  With assertions enabled ([__debug__] true,
    the default) it raises AssertionError, with the message Input required,
    if and only if user_input is None; with assertions compiled away
    ([python -O]) it returns its argument, None included. *)
Theorem assert_usage_spec py (user_input : value) (st : state) :
  (user_input ≠ VNone → assert_usage py user_input st = (Ret user_input, st))
  ∧ (debug py = true →
       ((∃ args, (assert_usage py user_input st).1 = Raise (AssertionError args))
        ↔ user_input = VNone)
       ∧ (user_input = VNone →
          assert_usage py user_input st
          = (Raise (AssertionError [VStr "Input required"]), st)))
  ∧ (debug py = false → assert_usage py user_input st = (Ret user_input, st)).
Proof.
  unfold assert_usage, assert_, bind, ret, raise.
  repeat split.
  - intros Hnone. destruct (debug py), user_input; try reflexivity.
    contradiction.
  - rewrite H. destruct user_input; cbn; intros [args Hargs];
      first [reflexivity | discriminate Hargs].
  - intros ->. rewrite H. cbn. eexists. reflexivity.
  - intros ->. rewrite H. reflexivity.
  - intros ->. destruct user_input; reflexivity.
Qed.

Lemma assert_usage_spec_witness :
  (VStr "admin" ≠ VNone ∧ debug ref_interp = true ∧ debug ref_interp_O = false)
  ∧ assert_usage ref_interp (VStr "admin") (start module_world)
    = (Ret (VStr "admin"), start module_world)
  ∧ assert_usage ref_interp VNone (start module_world)
    = (Raise (AssertionError [VStr "Input required"]), start module_world)
  ∧ assert_usage ref_interp_O VNone (start module_world)
    = (Ret VNone, start module_world).
Proof.
  split; [split; [discriminate | split; reflexivity] |].
  split; [| split].
  - apply (proj1 (assert_usage_spec ref_interp (VStr "admin") (start module_world))).
    discriminate.
  - apply (proj2 (proj1 (proj2 (assert_usage_spec ref_interp VNone
                                  (start module_world))) eq_refl)).
    reflexivity.
  - apply (proj2 (proj2 (assert_usage_spec ref_interp_O VNone
                           (start module_world)))).
    reflexivity.
Defined.





(** C10.  For every string user_id, sql_injection(user_id) returns exactly
    the query prefix followed by user_id, unquoted and unescaped, and does
    nothing else. *)
Theorem sql_injection_concatenates py (user_id : string) (st : state) :
  sql_injection py (VStr user_id) st
  = (Ret (VStr ("SELECT * FROM users WHERE id = " +:+ user_id)), st).
Proof. reflexivity. Qed.

(* ===================================================================== *)
(** ** Further properties of the functions                                *)
(* ===================================================================== *)



(** X2.  shell_injection hands the user input to the shell as it is: for a
    string it makes exactly one call, subprocess.Popen of the text echo
    followed by the input, with shell=True; it returns None when Popen
    returns and raises what Popen raises.  For any argument at all, every
    Popen call it makes has one positional argument, a string that starts
    with echo, and shell=True. *)
Theorem shell_injection_command py :
  (∀ user_input w,
     let call := ext_sem py (Fn "subprocess.Popen")
                   [VStr ("echo " +:+ user_input)] [("shell", VBool true)] w in
     shell_injection py (VStr user_input) (start w)
     = (match call.1 with Ret _ => Ret VNone | Raise e => Raise e end,
        {| st_world := call.2;
           st_trace := [Ev (Fn "subprocess.Popen")
                          [VStr ("echo " +:+ user_input)]
                          [("shell", VBool true)] call.1] |}))
  ∧ (∀ user_input w ev,
       In ev (st_trace (shell_injection py user_input (start w)).2) →
       ev_callee ev = Fn "subprocess.Popen" →
       ∃ s, ev_args ev = [VStr ("echo " +:+ s)]
            ∧ ev_kwargs ev = [("shell", VBool true)]).
Proof.
  split.
  - intros user_input w. cbv zeta. run_in_state; reflexivity.
  - intros user_input w ev. run_in_state.
    all: cbn [app In]; intros Hin Hcallee.
    all: repeat (destruct Hin as [<-|Hin]; [cbn in Hcallee |]);
      try contradiction; try discriminate Hcallee.
    all: eexists; split; reflexivity.
Qed.

Lemma shell_injection_command_witness :
  (In (Ev (Fn "subprocess.Popen") [VStr "echo hi; id"] [("shell", VBool true)]
         (Ret (VStr "echo hi; id")))
      (st_trace (shell_injection echo_interp (VStr "hi; id")
                   (start empty_world)).2)
   ∧ Fn "subprocess.Popen" = Fn "subprocess.Popen")
  ∧ ∃ s, [VStr "echo hi; id"] = [VStr ("echo " +:+ s)]
         ∧ [("shell", VBool true)] = [("shell", VBool true)].
Proof.
  assert (Hin : In (Ev (Fn "subprocess.Popen") [VStr "echo hi; id"]
                      [("shell", VBool true)] (Ret (VStr "echo hi; id")))
                  (st_trace (shell_injection echo_interp (VStr "hi; id")
                               (start empty_world)).2))
    by (left; reflexivity).
  split; [split; [exact Hin | reflexivity] |].
  exact (proj2 (shell_injection_command echo_interp) (VStr "hi; id")
           empty_world _ Hin eq_refl).
Defined.

(** X3.  Whenever insecure_random returns, it returns a string that starts
    with token_.  It asks random.randint for a number between 0 and 999999
    first; when the answer is an integer n of that range the token is
    token_ followed by n in decimal, and random.randint is the only call
    made. *)
Theorem insecure_random_token py :
  (∀ st r st', insecure_random py st = (Ret r, st') →
     ∃ s, r = VStr ("token_" +:+ s))
  ∧ (∀ w ev evs, st_trace (insecure_random py (start w)).2 = ev :: evs →
       ev_callee ev = Fn "random.randint"
       ∧ ev_args ev = [VInt 0; VInt 999999] ∧ ev_kwargs ev = [])
  ∧ (∀ w n w',
       ext_sem py (Fn "random.randint") [VInt 0; VInt 999999] [] w
       = (Ret (VInt n), w') →
       0 <= n <= 999999 →
       insecure_random py (start w)
       = (Ret (VStr ("token_" +:+ Z_to_string n)),
          {| st_world := w';
             st_trace := [Ev (Fn "random.randint") [VInt 0; VInt 999999] []
                            (Ret (VInt n))] |})).
Proof.
  split; [| split].
  - intros st r st'.
    assert (Hgoal : match insecure_random py st with
                    | (Ret r, _) => ∃ s, r = VStr ("token_" +:+ s)
                    | (Raise _, _) => True
                    end).
    { run_in_state. all: first [exact I | eexists; reflexivity]. }
    intros Hrun. rewrite Hrun in Hgoal. exact Hgoal.
  - intros w ev evs. run_in_state.
    all: cbn [app]; intros Htrace; injection Htrace as <- _.
    all: repeat split.
  - intros w n w' Hcall Hrange. unfold_fixture. rewrite Hcall.
    cbv beta iota zeta. rewrite (small_int_fits py n); [reflexivity|].
    apply Z.lt_le_trans with (10 ^ 6); [lia|].
    apply Z.pow_le_mono_r; lia.
Qed.

Lemma insecure_random_token_witness :
  (ext_sem echo_interp (Fn "random.randint") [VInt 0; VInt 999999] []
     empty_world = (Ret (VInt 0), empty_world)
   ∧ 0 <= 0 <= 999999)
  ∧ insecure_random echo_interp (start empty_world)
    = (Ret (VStr "token_0"),
       {| st_world := empty_world;
          st_trace := [Ev (Fn "random.randint") [VInt 0; VInt 999999] []
                         (Ret (VInt 0))] |}).
Proof.
  assert (Hrange : 0 <= 0 <= 999999) by lia.
  split; [split; [reflexivity | exact Hrange]|].
  exact (proj2 (proj2 (insecure_random_token echo_interp)) empty_world 0
           empty_world eq_refl Hrange).
Defined.

(** X4.  sql_injection accepts a string only: for None, a boolean, an
    integer, bytes, a list or a tuple it raises TypeError and touches
    nothing, and for such arguments and strings it returns only for a
    string, the query being the prefix followed by that string. *)
Theorem sql_injection_rejects_non_strings py :
  (∀ user_id st,
     match user_id with
     | VStr _ | VObj _ _ | VLib _ => True
     | _ => sql_injection py user_id st
            = (Raise (TypeError [VStr "can only concatenate str to str"]), st)
     end)
  ∧ (∀ user_id st r st',
       (∀ cls fields, user_id ≠ VObj cls fields) →
       (∀ q, user_id ≠ VLib q) →
       sql_injection py user_id st = (Ret r, st') →
       ∃ s, user_id = VStr s
            ∧ r = VStr ("SELECT * FROM users WHERE id = " +:+ s) ∧ st' = st).
Proof.
  split.
  - intros user_id st. destruct user_id; try exact I; reflexivity.
  - intros user_id st r st' Hobj Hlib Hrun.
    destruct user_id; try discriminate Hrun.
    + injection Hrun as <- <-. eexists. repeat split.
    + exfalso. exact (Hobj _ _ eq_refl).
    + exfalso. exact (Hlib _ eq_refl).
Qed.

Lemma sql_injection_rejects_non_strings_witness :
  sql_injection ref_interp (VInt 7) (start module_world)
  = (Raise (TypeError [VStr "can only concatenate str to str"]),
     start module_world)
  ∧ sql_injection ref_interp (VStr "7") (start module_world)
    = (Ret (VStr "SELECT * FROM users WHERE id = 7"), start module_world)
  ∧ ∃ s, VStr "7" = VStr s
         ∧ VStr "SELECT * FROM users WHERE id = 7"
           = VStr ("SELECT * FROM users WHERE id = " +:+ s)
         ∧ start module_world = start module_world.
Proof.
  split; [| split].
  - exact (proj1 (sql_injection_rejects_non_strings ref_interp) (VInt 7)
             (start module_world)).
  - reflexivity.
  - apply (proj2 (sql_injection_rejects_non_strings ref_interp) (VStr "7")
             (start module_world) _ (start module_world));
      [discriminate | discriminate | reflexivity].
Defined.

(** X5.  weak_hash, insecure_temp, eval_usage, url_open, parse_xml,
    insecure_ssl, more_weak_hashes and unsafe_yaml hand back what the
    library gave them: the outcome of a call (the value returned or the
    exception raised) is the outcome of the last library or builtin call
    it made.  A call that made none was given a wrong number of arguments:
    it raises TypeError and changes nothing. *)
Theorem pass_through_results py :
  ∀ name f, In (name, f) (module_functions py) →
  In name pass_through_functions →
  ∀ args w,
    match last (st_trace (f args (start w)).2) with
    | Some ev => (f args (start w)).1 = ev_outcome ev
    | None => (f args (start w)).1 = Raise arity_TypeError
              ∧ st_world (f args (start w)).2 = w
    end.
Proof.
  intros name f Hin Hname args w.
  exact (table_lookup _ _ (pass_through_return_last_result py) name f Hin
           (In_is_member _ _ Hname) args w).
Qed.

Lemma pass_through_results_witness :
  (In ("eval_usage", params1 (eval_usage echo_interp))
      (module_functions echo_interp)
   ∧ In "eval_usage" pass_through_functions)
  ∧ (params1 (eval_usage echo_interp) [VStr "1 + 1"] (start empty_world)).1
    = Ret (VStr "1 + 1").
Proof.
  split; [split; [find_entry | find_name] |].
  exact (pass_through_results echo_interp "eval_usage"
           (params1 (eval_usage echo_interp)) ltac:(find_entry)
           ltac:(find_name) [VStr "1 + 1"] empty_world).
Defined.




(** X7.  use_tmp closes the file it opened, exactly once, whatever happens
    while writing: when open and __enter__ return, __exit__ is called on the
    object open returned, once.  What becomes of a failure of the write is
    decided by the answer of __exit__: use_tmp raises the exception of the
    write when the answer is None or a false value (as a real file
    answers), and returns None, the exception suppressed, when it is a true
    value.  When open itself raises, nothing else is called and use_tmp
    raises that exception. *)
Theorem use_tmp_closes_file py :
  (∀ w e w1,
     ext_sem py (Fn "builtins.open") [VStr "/tmp/data.txt"; VStr "w"] [] w
     = (Raise e, w1) →
     use_tmp py (start w)
     = (Raise e,
        {| st_world := w1;
           st_trace := [Ev (Fn "builtins.open")
                          [VStr "/tmp/data.txt"; VStr "w"] [] (Raise e)] |}))
  ∧ (∀ w fobj w1 f w2,
       ext_sem py (Fn "builtins.open") [VStr "/tmp/data.txt"; VStr "w"] [] w
       = (Ret fobj, w1) →
       ext_sem py (Fn "io.IOBase.__enter__") [fobj] [] w1 = (Ret f, w2) →
       count_calls (calls "io.IOBase.__exit__")
         (st_trace (use_tmp py (start w)).2) = 1%nat
       ∧ (∃ ev, In ev (st_trace (use_tmp py (start w)).2)
                ∧ calls "io.IOBase.__exit__" ev = true
                ∧ head (ev_args ev) = Some fobj)
       ∧ (∀ e w3 answer w4 suppress,
            ext_sem py (Fn "io.TextIOWrapper.write")
              [f; VStr "sensitive data"] [] w2 = (Raise e, w3) →
            ext_sem py (Fn "io.IOBase.__exit__")
              [fobj; VLib (exn_class e); VObj (exn_class e) (exn_args e);
               VLib "traceback"] [] w3 = (Ret answer, w4) →
            truth_value answer = Some suppress →
            (use_tmp py (start w)).1
            = if suppress then Ret VNone else Raise e)).
Proof.
  split.
  - intros w e w1 Hopen. unfold_fixture. rewrite Hopen. reflexivity.
  - intros w fobj w1 f w2 Hopen Henter. split; [| split].
    + unfold_fixture. rewrite Hopen. cbv beta iota zeta.
      rewrite Henter. cbv beta iota zeta.
      repeat (first [ext_step | value_step]).
      all: vm_compute; reflexivity.
    + unfold_fixture. rewrite Hopen. cbv beta iota zeta.
      rewrite Henter. cbv beta iota zeta.
      destruct (ext_sem py (Fn "io.TextIOWrapper.write") _ _ w2)
        as [[r|e] w3] eqn:Hwrite; cbv beta iota zeta;
        match goal with
        | |- context [ext_sem py (Fn "io.IOBase.__exit__") ?a ?k ?w] =>
            exists (Ev (Fn "io.IOBase.__exit__") a k
                      (ext_sem py (Fn "io.IOBase.__exit__") a k w).1);
            destruct (ext_sem py (Fn "io.IOBase.__exit__") a k w)
              as [[r'|e'] w4] eqn:Hexit
        end; cbv beta iota zeta.
      all: split; [| split; reflexivity].
      all: repeat (first [ext_step | value_step]).
      all: cbn [app In fst]; auto 10.
    + intros e w3 answer w4 suppress Hwrite Hexit Htruth.
      unfold use_tmp, with_file, truthy, ext, bind, ret, raise, start.
      cbn [st_world st_trace]. rewrite Hopen. cbn [st_world st_trace].
      rewrite Henter. cbn [st_world st_trace]. rewrite Hwrite.
      cbn [st_world st_trace]. rewrite Hexit. cbn [st_world st_trace].
      rewrite Htruth. destruct suppress; reflexivity.
Qed.

Lemma use_tmp_closes_file_witness :
  (ext_sem ref_interp (Fn "builtins.open") [VStr "/tmp/data.txt"; VStr "w"] []
     empty_world
   = (Ret (VObj "io.TextIOWrapper" [VStr "/tmp/data.txt"]),
      (ref_sem (Fn "builtins.open") [VStr "/tmp/data.txt"; VStr "w"] []
         empty_world).2))
  ∧ count_calls (calls "io.IOBase.__exit__")
      (st_trace (use_tmp ref_interp (start empty_world)).2) = 1%nat.
Proof.
  split; [reflexivity|].
  exact (proj1 (proj2 (use_tmp_closes_file ref_interp) empty_world
                  (VObj "io.TextIOWrapper" [VStr "/tmp/data.txt"])
                  (ref_sem (Fn "builtins.open")
                     [VStr "/tmp/data.txt"; VStr "w"] [] empty_world).2
                  (VObj "io.TextIOWrapper" [VStr "/tmp/data.txt"])
                  (ref_sem (Fn "builtins.open")
                     [VStr "/tmp/data.txt"; VStr "w"] [] empty_world).2
                  eq_refl eq_refl)).
Defined.



Lemma all_reject_wrong_arity py :
  Forall (λ nf, ∀ req tot,
            signature_of nf.1 fixture_source = Some (req, tot) →
            ∀ args w, (length args < req ∨ tot < length args)%nat →
            nf.2 args (start w) = (Raise arity_TypeError, start w))
    (module_functions py).
Proof.
  each_function.
  all: cbn [fst snd]; intros req tot Hsig; vm_compute in Hsig.
  all: injection Hsig as <- <-.
  all: intros args w Hlen; split_args args; cbn [length] in Hlen.
  all: first [exfalso; lia | reflexivity].
Qed.

(** X9.  Every function takes the positional arguments its def line
    declares: called with fewer than the parameters without a default, or
    with more than the parameters in all, it raises TypeError before
    anything else happens (no library call, the world unchanged).  Every
    function of the file has such a def line. *)
Theorem wrong_arity_is_TypeError py :
  (∀ name f, In (name, f) (module_functions py) →
   ∀ req tot, signature_of name fixture_source = Some (req, tot) →
   ∀ args w, (length args < req ∨ tot < length args)%nat →
     f args (start w) = (Raise arity_TypeError, start w))
  ∧ Forall (λ nf, is_Some (signature_of nf.1 fixture_source))
      (module_functions py).
Proof.
  split.
  - intros name f Hin.
    exact (table_lookup _ _ (all_reject_wrong_arity py) name f Hin).
  - each_function. all: vm_compute; eexists; reflexivity.
Qed.

Lemma wrong_arity_is_TypeError_witness :
  (In ("login", params2_default login_default login)
      (module_functions ref_interp)
   ∧ signature_of "login" fixture_source = Some (1, 2)%nat
   ∧ (length (@nil value) < 1 ∨ 2 < length (@nil value))%nat)
  ∧ params2_default login_default login [] (start module_world)
    = (Raise arity_TypeError, start module_world).
Proof.
  assert (Hlen : (length (@nil value) < 1 ∨ 2 < length (@nil value))%nat)
    by (left; cbn; lia).
  split; [split; [find_entry | split; [vm_compute; reflexivity | exact Hlen]] |].
  exact (proj1 (wrong_arity_is_TypeError ref_interp) "login"
           (params2_default login_default login) ltac:(find_entry)
           1%nat 2%nat ltac:(vm_compute; reflexivity) [] module_world Hlen).
Defined.

(** X10.  ssh_command never uses its cmd parameter: the outcome, the calls
    made and the final state are the same for any two commands.  Whenever
    it reaches the connection, it connects to the host it was given with
    the user root and the password toor. *)
Theorem ssh_command_ignores_cmd py :
  (∀ host cmd cmd' st, ssh_command py host cmd st = ssh_command py host cmd' st)
  ∧ (∀ host cmd w ev,
       In ev (st_trace (ssh_command py host cmd (start w)).2) →
       ev_callee ev = Fn "paramiko.SSHClient.connect" →
       ev_args ev !! 1%nat = Some host
       ∧ ev_kwargs ev = [("username", VStr "root"); ("password", VStr "toor")]).
Proof.
  split; [reflexivity|].
  intros host cmd w ev. run_in_state.
  all: cbn [app In]; intros Hin Hcallee.
  all: repeat (destruct Hin as [<-|Hin]; [cbn in Hcallee |]);
    try contradiction; try discriminate Hcallee.
  all: split; reflexivity.
Qed.

Lemma ssh_command_ignores_cmd_witness :
  (In (Ev (Fn "paramiko.SSHClient.connect") [VNone; VStr "example.com"]
         [("username", VStr "root"); ("password", VStr "toor")] (Ret VNone))
      (st_trace (ssh_command echo_interp (VStr "example.com") (VStr "uptime")
                   (start empty_world)).2)
   ∧ Fn "paramiko.SSHClient.connect" = Fn "paramiko.SSHClient.connect")
  ∧ [VNone; VStr "example.com"] !! 1%nat = Some (VStr "example.com")
  ∧ [("username", VStr "root"); ("password", VStr "toor")]
    = [("username", VStr "root"); ("password", VStr "toor")].
Proof.
  assert (Hin : In (Ev (Fn "paramiko.SSHClient.connect")
                      [VNone; VStr "example.com"]
                      [("username", VStr "root"); ("password", VStr "toor")]
                      (Ret VNone))
                  (st_trace (ssh_command echo_interp (VStr "example.com")
                               (VStr "uptime") (start empty_world)).2))
    by (vm_compute; do 4 right; left; reflexivity).
  split; [split; [exact Hin | reflexivity] |].
  exact (proj2 (ssh_command_ignores_cmd echo_interp) (VStr "example.com")
           (VStr "uptime") empty_world _ Hin eq_refl).
Defined.

Lemma all_bounded_calls py :
  Forall (λ nf, always bounded_calls nf.2
                ∨ nf.1 = "continue_on_error") (module_functions py).
Proof.
  each_function.
  10: { right. reflexivity. }
  all: left; unfold always, bounded_calls; cbv beta.
  all: intros args w; split_args args; run_call.
  all: vm_compute; lia.
Qed.

(** X11.  Only continue_on_error loops over a call: whatever its arguments
    and whatever the library answers, a call of any other function of the
    file makes at most five library or builtin calls.  continue_on_error
    makes no call at all when it is given a list, a tuple, a str or
    bytes. *)
Theorem at_most_five_calls py :
  (∀ name f, In (name, f) (module_functions py) →
   name ≠ "continue_on_error" →
   ∀ args w, (length (st_trace (f args (start w)).2) <= 5)%nat)
  ∧ (∀ items w,
       match items with
       | VList _ | VTuple _ | VStr _ | VBytes _ =>
           params1 (items_of continue_on_error
                      (continue_on_error_over py process)) [items] (start w)
           = (Ret VNone, start w)
       | _ => True
       end).
Proof.
  split.
  - intros name f Hin Hname args w.
    destruct (table_lookup _ _ (all_bounded_calls py) name f Hin) as [H|H].
    + exact (H args w).
    + contradiction.
  - intros items w. destruct items; try exact I;
      cbn [params1 items_of]; apply continue_on_error_run.
Qed.

Lemma at_most_five_calls_witness :
  (In ("ssh_command", params2 (ssh_command echo_interp))
      (module_functions echo_interp)
   ∧ "ssh_command" ≠ "continue_on_error")
  ∧ (length (st_trace (params2 (ssh_command echo_interp)
                         [VStr "example.com"; VStr "uptime"]
                         (start empty_world)).2) <= 5)%nat.
Proof.
  split; [split; [find_entry | discriminate]|].
  apply (proj1 (at_most_five_calls echo_interp) "ssh_command"
           (params2 (ssh_command echo_interp)) ltac:(find_entry)).
  discriminate.
Defined.

(** X12.  more_weak_hashes creates an md5 and a sha1 object but digests the
    md5 one only: every update and every hexdigest it calls is called on
    the object the first hashlib.new (md5) returned, and hashlib.new is
    called at most twice; the sha1 object is never used. *)
Theorem more_weak_hashes_uses_md5_only py :
  ∀ data w h1 w1,
    ext_sem py (Fn "hashlib.new") [VStr "md5"] [] w = (Ret h1, w1) →
    (∀ ev, In ev (st_trace (more_weak_hashes py data (start w)).2) →
       ev_callee ev = Fn "_hashlib.HASH.update"
       ∨ ev_callee ev = Fn "_hashlib.HASH.hexdigest" →
       head (ev_args ev) = Some h1)
    ∧ (count_calls (calls "hashlib.new")
         (st_trace (more_weak_hashes py data (start w)).2) <= 2)%nat.
Proof.
  intros data w h1 w1 Hnew. unfold_fixture. rewrite Hnew.
  cbv beta iota zeta. repeat ext_step.
  all: split; [| vm_compute; lia].
  all: cbn [app In]; intros ev Hin Hcallee.
  all: repeat (destruct Hin as [<-|Hin]; [cbn in Hcallee |]);
    try contradiction.
  all: first [reflexivity | destruct Hcallee as [H|H]; discriminate H].
Qed.

Lemma more_weak_hashes_uses_md5_only_witness :
  (ext_sem echo_interp (Fn "hashlib.new") [VStr "md5"] [] empty_world
   = (Ret (VStr "md5"), empty_world)
   ∧ In (Ev (Fn "_hashlib.HASH.hexdigest") [VStr "md5"] [] (Ret (VStr "md5")))
        (st_trace (more_weak_hashes echo_interp (VStr "secret")
                     (start empty_world)).2))
  ∧ head [VStr "md5"] = Some (VStr "md5")
  ∧ (more_weak_hashes echo_interp (VStr "secret") (start empty_world)).1
    = Ret (VStr "md5").
Proof.
  assert (Hin : In (Ev (Fn "_hashlib.HASH.hexdigest") [VStr "md5"] []
                      (Ret (VStr "md5")))
                  (st_trace (more_weak_hashes echo_interp (VStr "secret")
                               (start empty_world)).2))
    by (vm_compute; do 4 right; left; reflexivity).
  split; [split; [reflexivity | exact Hin] |]. split; [| reflexivity].
  exact (proj1 (more_weak_hashes_uses_md5_only echo_interp (VStr "secret")
                  empty_world (VStr "md5") empty_world eq_refl)
           _ Hin (or_intror eq_refl)).
Defined.

Lemma others_raise_only_after_failure py :
  Forall (λ nf, is_member nf.1 raising_functions = false →
            ∀ req tot, signature_of nf.1 fixture_source = Some (req, tot) →
            ∀ args w, (req <= length args <= tot)%nat →
            raises_only_after_failure w (nf.2 args (start w)).1
              (nf.2 args (start w)).2)
    (module_functions py).
Proof.
  each_function.
  all: cbn [fst snd]; intros Hmem; vm_compute in Hmem;
    try discriminate Hmem; clear Hmem.
  all: intros req tot Hsig; vm_compute in Hsig; injection Hsig as <- <-.
  all: intros args w Hlen; split_args args; cbn [length] in Hlen;
    try (exfalso; lia); clear Hlen.
  all: unfold raises_only_after_failure; run_call.
  all: intros Hret; vm_compute in Hret;
    first [discriminate Hret | eexists; reflexivity].
Qed.

(** X13.  Apart from assert_usage, connect_db, continue_on_error,
    insecure_random, shell_injection and sql_injection, no function raises
    an exception of its own: called with the number of arguments its def
    line allows, it returns whenever every library or builtin call it made
    returned. *)
Theorem raises_only_when_a_call_raised py :
  ∀ name f, In (name, f) (module_functions py) →
  ¬ In name raising_functions →
  ∀ req tot, signature_of name fixture_source = Some (req, tot) →
  ∀ args w, (req <= length args <= tot)%nat →
    forallb returned (st_trace (f args (start w)).2) = true →
    ∃ v, (f args (start w)).1 = Ret v.
Proof.
  intros name f Hin Hname.
  exact (table_lookup _ _ (others_raise_only_after_failure py) name f Hin
           (not_member _ _ Hname)).
Qed.

Lemma raises_only_when_a_call_raised_witness :
  (In ("use_tmp", params0 (use_tmp ref_interp)) (module_functions ref_interp)
   ∧ ¬ In "use_tmp" raising_functions
   ∧ signature_of "use_tmp" fixture_source = Some (0, 0)%nat
   ∧ (0 <= length (@nil value) <= 0)%nat
   ∧ forallb returned
       (st_trace (params0 (use_tmp ref_interp) [] (start empty_world)).2)
     = true)
  ∧ ∃ v, (params0 (use_tmp ref_interp) [] (start empty_world)).1 = Ret v.
Proof.
  assert (Hname : ¬ In "use_tmp" raising_functions).
  { cbn. intros H. repeat (destruct H as [H|H]; [discriminate H|]). exact H. }
  assert (Hlen : (0 <= length (@nil value) <= 0)%nat) by (cbn; lia).
  split.
  - split; [find_entry|]. split; [exact Hname|].
    split; [vm_compute; reflexivity|]. split; [exact Hlen | vm_compute; reflexivity].
  - exact (raises_only_when_a_call_raised ref_interp "use_tmp"
             (params0 (use_tmp ref_interp)) ltac:(find_entry) Hname
             0%nat 0%nat ltac:(vm_compute; reflexivity) [] empty_world Hlen
             ltac:(vm_compute; reflexivity)).
Defined.
